(** * core/models.py: pricing, discounts, order totals and stock depletion

    A shallow embedding of the Django models of [core/models.py] and of the
    five methods that compute something: [MenuItem.caluclate_cost],
    [Discount.is_valid], [Order.update_total_amount], [OrderItem.subtotal]
    and [OrderItem.save].

    Python values are modelled by their run-time type:
    - [DecimalField] attributes are [decimal.Decimal] objects; their value is
      an exact rational ([Q]).  Sums, differences, products and the division
      by the literal [100] are exact on decimals as long as the coefficient
      fits the context precision of 28 digits, and the model is exact
      throughout: it does not follow the rounding Python applies beyond that
      precision.  Numeric equality of decimals is [Qeq].
    - [FloatField] attributes are binary64 floats ([spec_float] with
      precision 53 and maximal exponent 1024), computed with the IEEE
      operations of the standard library's [SpecFloat].
    - [IntegerField] attributes are Python integers ([Z]); the column is a
      signed 64-bit integer.
    - [DateTimeField] attributes are instants on a linear clock ([Z]).

    The database is an explicit store, one list of rows per table in table
    order; methods that write thread it through a state monad in which an
    exception leaves the store as it is at the point of the raise (nothing
    is rolled back).  The table of order lines holds the lines as a query
    gives them back, the price in the two decimal places of its column; the
    table of orders holds each order as it was written, and the total is
    brought to the column's places and digits when a row is read.  A write
    that breaks a foreign key fails and writes nothing. *)

From Stdlib Require Import ZArith QArith Qminmax Lqa Lia Bool List.
From Stdlib Require Import Floats.SpecFloat.
From stdpp Require Import base strings list.

Close Scope Q_scope.
Open Scope Z_scope.

(** ** Exceptions *)

Inductive exn : Type :=
| NameError (name : string)
    (* a global name that is bound neither in the module nor in builtins *)
| TypeError (op lhs rhs : string)
    (* unsupported operand type(s) for [op]: [lhs] and [rhs] *)
| OverflowError
    (* int too large to convert to float, or to an integer column *)
| DoesNotExist (model : string) (pk : Z)
    (* a related object that is not in its table *)
| IntegrityError
    (* a row written with a foreign key that points to no row *)
| InvalidOperation.
    (* a decimal that does not fit the digits of its column *)

Inductive result (A : Type) : Type :=
| Ok (a : A)
| Raise (e : exn).
Arguments Ok {A} a.
Arguments Raise {A} e.

Definition rbind {A B} (r : result A) (k : A → result B) : result B :=
  match r with
  | Ok a => k a
  | Raise e => Raise e
  end.

Global Instance result_ret : MRet result := λ A a, Ok a.
Global Instance result_bind : MBind result := λ A B k r, rbind r k.

(** ** The module's global namespace

    [models.py] has two import statements, which bind [models] and [User],
    and eleven class statements.  A global name is looked up in this
    namespace and then in the builtins; a miss raises [NameError] when the
    expression is evaluated. *)

Definition models_py : list string :=
  ["models"; "User";
   "Supplier"; "Category"; "Ingredient"; "MenuItem"; "MenuItemComponent";
   "Recipe"; "Discount"; "Order"; "OrderItem"]%string.

(** The builtins the module calls; no builtin is called [timezone]. *)
Definition builtins : list string := ["sum"; "max"]%string.

Definition load_global (ns : list string) (x : string) : result unit :=
  if existsb (String.eqb x) (ns ++ builtins) then Ok tt else Raise (NameError x).

(** ** Numbers *)

Definition Decimal : Type := Q.
Definition pyfloat : Type := spec_float.
Definition datetime : Type := Z.

Definition prec : Z := 53.
Definition emax : Z := 1024.

(** [float(z)] for an integer operand of a float operation: correctly
    rounded, [OverflowError] when the integer is beyond the finite floats. *)
Definition float_of_int (z : Z) : result pyfloat :=
  match binary_normalize prec emax z 0 false with
  | S754_infinity _ => Raise OverflowError
  | f => Ok f
  end.

(** [f * z] with [f] a float and [z] an int. *)
Definition float_mul_int (f : pyfloat) (z : Z) : result pyfloat :=
  fz ← float_of_int z;
  Ok (SFmul prec emax f fz).

Definition float_sub (f g : pyfloat) : pyfloat := SFsub prec emax f g.
Definition float_zero : pyfloat := S754_zero false.

(** [d * f] with [d] a [Decimal] and [f] a float: [Decimal.__mul__] returns
    [NotImplemented] for a float operand and so does [float.__rmul__] for a
    decimal one. *)
Definition decimal_mul_float (d : Decimal) (f : pyfloat) : result Decimal :=
  Raise (TypeError "*" "decimal.Decimal" "float").

(** [max(a, b)] of two numbers: [b] only when [b > a]. *)
Definition py_max (a b : Q) : Q :=
  if Qle_bool b a then a else b.

(** [sum(xs)]: a left fold of [+] from the int [0]. *)
Definition py_sum (xs : list Q) : Q :=
  fold_left Qplus xs (0%Q).

(** ** Columns

    What the database does to a value on its way to and from a row.  An
    [IntegerField] is a signed 64-bit column: a Python integer beyond it
    cannot be bound to the statement ([OverflowError]).  A [DecimalField]
    with two decimal places gives back the value in hundredths, a tie going
    to the even hundredth, and cannot give back a value of more than
    [max_digits] digits ([InvalidOperation]). *)

Definition int64 (z : Z) : bool :=
  (- 2 ^ 63 <=? z) && (z <? 2 ^ 63).

(** The integer nearest to [q], the even one of the two when [q] is half way
    between them. *)
Definition round_half_even (q : Q) : Z :=
  let n := Qnum q in
  let d := Z.pos (Qden q) in
  let f := n / d in
  match 2 * (n mod d) ?= d with
  | Lt => f
  | Gt => f + 1
  | Eq => if Z.even f then f else f + 1
  end.

(** [d.quantize(Decimal('0.01'))] *)
Definition quantize (d : Decimal) : Decimal :=
  (round_half_even (d * 100) # 100)%Q.

(** Whether the quantized value has at most [max_digits] digits. *)
Definition readable (max_digits : Z) (d : Decimal) : bool :=
  Z.abs (round_half_even (d * 100)) <? 10 ^ max_digits.

(** ** The models

    One record per model class whose attributes a method reads or writes,
    with those attributes and the primary key; a foreign key is the key of
    the row it points to, except [Order.discount], which is the related
    instance the order holds ([None] when there is none), with the rows of
    its many-to-many table [excluded_items].  An order line has, next to the
    key of its order, the [Order] instance it holds, if any: the one it was
    built with or has read; a line that comes from a query holds none. *)

Module Ingredient.
Record t : Type := mk {
  id : Z;
  name : string;
  quantity : pyfloat;
  unit : string;
  reorder_point : pyfloat;
  cost_per_unit : Decimal;
}.
End Ingredient.

Module MenuItem.
Record t : Type := mk {
  id : Z;
  name : string;
  price : Decimal;
  misc_cost : Decimal;
  is_available : bool;
}.
End MenuItem.

Module Recipe.
Record t : Type := mk {
  menu_item : Z;      (* menu_item_id *)
  ingredient : Z;     (* ingredient_id *)
  quantity : pyfloat;
}.
End Recipe.

Module Discount.
Record t : Type := mk {
  name : string;
  discount_type : string;
  discount_value : Decimal;
  start_date : option datetime;
  end_date : option datetime;
  is_active : bool;
  excluded_items : list Z;   (* the rows of the many-to-many table *)
}.
End Discount.

Module Order.
Record t : Type := mk {
  id : Z;
  status : string;
  total_amount : Decimal;
  payment_method : string;
  discount : option Discount.t;
}.
End Order.

Module OrderItem.
Record t : Type := mk {
  id : option Z;      (* [None] until the row is inserted *)
  order : Z;          (* order_id *)
  menu_item : Z;      (* menu_item_id *)
  quantity : Z;
  price : Decimal;
  is_free : bool;
  order_cache : option Order.t;
    (* the related [Order] instance, once the line holds one; its key is
       then [order] *)
}.
End OrderItem.

(** ** The database *)

Record DB : Type := mkDB {
  ingredients : list Ingredient.t;
  recipes : list Recipe.t;
  order_items : list OrderItem.t;
  orders : list Order.t;
  menu_items : list MenuItem.t;
}.

(** Rows are found and written by primary key: [get] is the lookup behind a
    foreign-key attribute, [put] the write of [Model.save()] on an instance
    that has a key (an update when a row with that key exists, an insert
    otherwise). *)
Section Table.
Context {R : Type} (pk : R → Z).

Definition get (k : Z) (rows : list R) : option R :=
  List.find (λ r, pk r =? k) rows.

Definition put (r : R) (rows : list R) : list R :=
  if existsb (λ r', pk r' =? pk r) rows
  then map (λ r', if pk r' =? pk r then r else r') rows
  else rows ++ [r].

(** Whether a row has the key: the check of a foreign-key constraint. *)
Definition has_row (k : Z) (rows : list R) : bool :=
  existsb (λ r, pk r =? k) rows.
End Table.

(** ** [MenuItem.caluclate_cost] *)

(** [self.recipe_items.all()] *)
Definition recipe_items (db : DB) (menu_item : Z) : list Recipe.t :=
  filter (λ r, Recipe.menu_item r = menu_item) (recipes db).

(** [recipe.ingredient] *)
Definition recipe_ingredient (db : DB) (r : Recipe.t) : result Ingredient.t :=
  match get Ingredient.id (Recipe.ingredient r) (ingredients db) with
  | Some i => Ok i
  | None => Raise (DoesNotExist "Ingredient" (Recipe.ingredient r))
  end.

(** The generator of [caluclate_cost], consumed by [sum]: the terms are
    computed and added one at a time, so the first failing term ends it. *)
Fixpoint sum_recipe_costs (db : DB) (acc : Q) (rs : list Recipe.t) : result Q :=
  match rs with
  | [] => Ok acc
  | r :: rs' =>
      i ← recipe_ingredient db r;
      c ← decimal_mul_float (Ingredient.cost_per_unit i) (Recipe.quantity r);
      sum_recipe_costs db (acc + c)%Q rs'
  end.

Definition caluclate_cost (db : DB) (self : MenuItem.t) : result Decimal :=
  total_cost ← sum_recipe_costs db (0%Q) (recipe_items db (MenuItem.id self));
  Ok (total_cost + MenuItem.misc_cost self)%Q.

(** ** [Discount.is_valid] *)

(** [timezone.now()]: the name [timezone] is looked up first. *)
Definition timezone_now (ns : list string) (clock : datetime) : result datetime :=
  _ ← load_global ns "timezone";
  Ok clock.

(** [d and d > timezone.now()] (and the same with [<]): a datetime is always
    truthy, [None] is falsy and short-circuits the conjunction. *)
Definition date_and (ns : list string) (clock : datetime)
    (d : option datetime) (cmp : datetime → datetime → bool) : result bool :=
  match d with
  | None => Ok false
  | Some t => now ← timezone_now ns clock; Ok (cmp t now)
  end.

Definition is_valid (ns : list string) (clock : datetime) (self : Discount.t)
    : result bool :=
  if negb (Discount.is_active self) then Ok false
  else
    too_early ← date_and ns clock (Discount.start_date self) Z.gtb;
    if (too_early : bool) then Ok false
    else
      too_late ← date_and ns clock (Discount.end_date self) Z.ltb;
      if (too_late : bool) then Ok false
      else Ok true.

(** ** The store monad

    A computation takes the database and returns the database it leaves
    behind together with a value or the exception it raised. *)

Definition M (A : Type) : Type := DB → DB * result A.

Global Instance M_ret : MRet M := λ A a db, (db, Ok a).
Global Instance M_bind : MBind M := λ A B k m db,
  match m db with
  | (db', Ok a) => k a db'
  | (db', Raise e) => (db', Raise e)
  end.

Definition get_db : M DB := λ db, (db, Ok db).
Definition lift {A} (r : result A) : M A := λ db, (db, r).

(** [for x in xs: body(x)] *)
Fixpoint for_each {A} (xs : list A) (body : A → M unit) : M unit :=
  match xs with
  | [] => mret tt
  | x :: xs' => body x ≫= λ _, for_each xs' body
  end.

(** ** [OrderItem.subtotal] *)

Definition subtotal (self : OrderItem.t) : Q :=
  if OrderItem.is_free self then 0%Q
  else (OrderItem.price self * inject_Z (OrderItem.quantity self))%Q.

(** ** [Order.update_total_amount] *)

(** [self.items.all()]: the rows of the order in the table of order lines,
    which holds them as the query gives them back. *)
Definition items (db : DB) (order : Z) : list OrderItem.t :=
  filter (λ i, OrderItem.order i = order) (order_items db).

(** [item.menu_item not in self.discount.excluded_items.all()] *)
Definition not_excluded (d : Discount.t) (item : OrderItem.t) : bool :=
  negb (existsb (Z.eqb (OrderItem.menu_item item)) (Discount.excluded_items d)).

(** The body of the loop over the order's lines: the new value of
    [discount_amount]. *)
Definition discount_step (d : Discount.t) (discount_amount : Q) (item : OrderItem.t) : Q :=
  if not_excluded d item then
    if String.eqb (Discount.discount_type d) "amount" then
      (discount_amount + Discount.discount_value d)%Q
    else if String.eqb (Discount.discount_type d) "percentage" then
      (discount_amount
       + (OrderItem.price item * Discount.discount_value d / 100)
         * inject_Z (OrderItem.quantity item))%Q
    else discount_amount
  else discount_amount.

(** Lines 136 to 144: the value of [discount_amount] after the [if]. *)
Definition discount_amount (ns : list string) (clock : datetime)
    (self : Order.t) (its : list OrderItem.t) : result Q :=
  match Order.discount self with
  | None => Ok 0%Q
  | Some d =>
      valid ← is_valid ns clock d;
      if (valid : bool) then Ok (fold_left (discount_step d) its 0%Q)
      else Ok 0%Q
  end.

(** [Order.save()]: the row of the order takes the instance's fields, as
    they are written; it is when the row is read ([read_order] below) that
    the total comes back in the places and digits of its column. *)
Definition saved_order (self : Order.t) (db : DB) : DB :=
  mkDB (ingredients db) (recipes db) (order_items db)
       (put Order.id self (orders db)) (menu_items db).

Definition Order_save (self : Order.t) : M unit := λ db,
  (saved_order self db, Ok tt).

Definition set_total_amount (self : Order.t) (total : Decimal) : Order.t :=
  Order.mk (Order.id self) (Order.status self) total
           (Order.payment_method self) (Order.discount self).

(** The method returns [None]; the model returns the instance as the call
    leaves it, which is the object the caller still holds. *)
Definition update_total_amount (ns : list string) (clock : datetime)
    (self : Order.t) : M Order.t :=
  db ← get_db;
  let subtotal := py_sum (map subtotal (items db (Order.id self))) in
  db ← get_db;
  discount_amount ← lift (discount_amount ns clock self (items db (Order.id self)));
  let total := (subtotal - discount_amount)%Q in
  let self := set_total_amount self (py_max total 0%Q) in
  _ ← Order_save self;
  mret self.

(** ** [OrderItem.save] *)

(** The primary key an insert assigns: one more than the largest in use. *)
Definition next_pk (rows : list OrderItem.t) : Z :=
  1 + fold_right (λ r acc, Z.max (default 0 (OrderItem.id r)) acc) 0 rows.

Definition with_pk (self : OrderItem.t) (k : Z) : OrderItem.t :=
  OrderItem.mk (Some k) (OrderItem.order self) (OrderItem.menu_item self)
               (OrderItem.quantity self) (OrderItem.price self)
               (OrderItem.is_free self) (OrderItem.order_cache self).

Definition has_pk (k : Z) (row : OrderItem.t) : bool :=
  bool_decide (OrderItem.id row = Some k).

(** The row of a line: its columns, the price as the two-place column gives
    it back, and no related instance. *)
Definition row_of (self : OrderItem.t) : OrderItem.t :=
  OrderItem.mk (OrderItem.id self) (OrderItem.order self)
               (OrderItem.menu_item self) (OrderItem.quantity self)
               (quantize (OrderItem.price self)) (OrderItem.is_free self) None.

(** The integers the statement of [super().save()] binds: the key when
    the instance has one, the keys of the order and of the menu item, and
    the quantity.  Each has to fit the integer column. *)
Definition bound_integers (self : OrderItem.t) : list Z :=
  match OrderItem.id self with Some k => [k] | None => [] end
  ++ [OrderItem.order self; OrderItem.menu_item self; OrderItem.quantity self].

Definition binds (self : OrderItem.t) : bool :=
  forallb int64 (bound_integers self).

(** [super().save()]: the integers have to fit their columns and both
    foreign keys have to point to a row, otherwise the statement fails and
    writes nothing; then an instance with a primary key updates its row when
    there is one and is inserted otherwise, and an instance without gets the
    next key and is inserted.  The instance keeps its own fields. *)
Definition super_save (self : OrderItem.t) : M OrderItem.t := λ db,
  if negb (binds self) then (db, Raise OverflowError)
  else if negb (has_row Order.id (OrderItem.order self) (orders db)
                && has_row MenuItem.id (OrderItem.menu_item self) (menu_items db))
  then (db, Raise IntegrityError)
  else
    let rows := order_items db in
    let '(self, rows') :=
      match OrderItem.id self with
      | Some k =>
          if existsb (has_pk k) rows
          then (self, map (λ row, if has_pk k row then row_of self else row) rows)
          else (self, rows ++ [row_of self])
      | None =>
          let self := with_pk self (next_pk rows) in
          (self, rows ++ [row_of self])
      end in
    (mkDB (ingredients db) (recipes db) rows' (orders db) (menu_items db),
     Ok self).

(** [ingredient.save()] *)
Definition Ingredient_save (i : Ingredient.t) : M unit := λ db,
  (mkDB (put Ingredient.id i (ingredients db)) (recipes db)
        (order_items db) (orders db) (menu_items db),
   Ok tt).

Definition set_quantity (i : Ingredient.t) (q : pyfloat) : Ingredient.t :=
  Ingredient.mk (Ingredient.id i) (Ingredient.name i) q (Ingredient.unit i)
                (Ingredient.reorder_point i) (Ingredient.cost_per_unit i).

(** The body of the loop over the recipe lines. *)
Definition deplete (self : OrderItem.t) (recipe : Recipe.t) : M unit :=
  db ← get_db;
  ingredient ← lift (recipe_ingredient db recipe);
  used ← lift (float_mul_int (Recipe.quantity recipe) (OrderItem.quantity self));
  let ingredient :=
    set_quantity ingredient (float_sub (Ingredient.quantity ingredient) used) in
  Ingredient_save ingredient.

(** A row of the order table read into an instance: the total comes back
    in hundredths, and not at all when it has more than ten digits. *)
Definition read_order (row : Order.t) : result Order.t :=
  if readable 10 (Order.total_amount row)
  then Ok (set_total_amount row (quantize (Order.total_amount row)))
  else Raise InvalidOperation.

(** [self.order]: the instance the line holds; a line that holds none (one
    that was itself read from its table) reads the row of its key. *)
Definition self_order (self : OrderItem.t) : M Order.t := λ db,
  match OrderItem.order_cache self with
  | Some o => (db, Ok o)
  | None =>
      match get Order.id (OrderItem.order self) (orders db) with
      | Some row => (db, read_order row)
      | None => (db, Raise (DoesNotExist "Order" (OrderItem.order self)))
      end
  end.

(** The line holding another order instance, or none. *)
Definition holding (self : OrderItem.t) (o : option Order.t) : OrderItem.t :=
  OrderItem.mk (OrderItem.id self) (OrderItem.order self)
               (OrderItem.menu_item self) (OrderItem.quantity self)
               (OrderItem.price self) (OrderItem.is_free self) o.

Definition with_order (self : OrderItem.t) (o : Order.t) : OrderItem.t :=
  holding self (Some o).

(** The method returns [None]; the model returns the instance as the call
    leaves it: with its key, and holding the order with its new total. *)
Definition save (ns : list string) (clock : datetime) (self : OrderItem.t)
    : M OrderItem.t :=
  self ← super_save self;
  db ← get_db;
  _ ← for_each (recipe_items db (OrderItem.menu_item self)) (deplete self);
  order ← self_order self;
  order ← update_total_amount ns clock order;
  mret (with_order self order).

(** ** Quantities the properties are stated with *)

(** [Σ f x] over the elements of a list, in list order. *)
Fixpoint sum_over {A} (f : A → Q) (xs : list A) : Q :=
  match xs with
  | [] => 0%Q
  | x :: xs' => (f x + sum_over f xs')%Q
  end.

(** The lines of an order a discount applies to. *)
Definition qualifying (d : Discount.t) (its : list OrderItem.t) : list OrderItem.t :=
  filter (λ l, OrderItem.menu_item l ∉ Discount.excluded_items d) its.

(** What one line is charged: nothing when free, price times quantity
    otherwise. *)
Definition line_charge (l : OrderItem.t) : Q :=
  if OrderItem.is_free l then 0%Q
  else (OrderItem.price l * inject_Z (OrderItem.quantity l))%Q.

(** The percentage of one line: (price × value / 100) × quantity. *)
Definition line_percentage (d : Discount.t) (l : OrderItem.t) : Q :=
  ((OrderItem.price l * Discount.discount_value d / 100)
   * inject_Z (OrderItem.quantity l))%Q.

(** What the loop adds for one line, whatever the discount's type. *)
Definition line_discount (d : Discount.t) (l : OrderItem.t) : Q :=
  if String.eqb (Discount.discount_type d) "amount" then Discount.discount_value d
  else if String.eqb (Discount.discount_type d) "percentage" then line_percentage d l
  else 0%Q.

(** The window of the specification: active, not before the start date and
    not after the end date, each date being optional. *)
Definition in_window (d : Discount.t) (now : datetime) : bool :=
  Discount.is_active d
  && match Discount.start_date d with None => true | Some t => t <=? now end
  && match Discount.end_date d with None => true | Some t => now <=? t end.

(** The total the call leaves on the instance, when it returns. *)
Definition total_after (ns : list string) (clock : datetime) (self : Order.t)
    (db : DB) : result Decimal :=
  match snd (update_total_amount ns clock self db) with
  | Ok self' => Ok (Order.total_amount self')
  | Raise e => Raise e
  end.

(** ** Signs of floats, stores and scenarios *)


(** Some floats. *)
Definition float_one : pyfloat := S754_finite false 4503599627370496 (-52).
Definition float_two : pyfloat := S754_finite false 4503599627370496 (-51).
Definition float_three : pyfloat := S754_finite false 6755399441055744 (-51).
Definition float_eight : pyfloat := S754_finite false 4503599627370496 (-49).
Definition float_hundred : pyfloat := S754_finite false 7036874417766400 (-46).

(** The Burger of the specification: one recipe line, one Bun (quantity 1.0)
    at 0.50 a unit, and 0.20 of miscellaneous cost. *)
Definition burger : MenuItem.t := MenuItem.mk 1 "Burger" (5#1)%Q (20#100)%Q true.

Definition burger_db : DB :=
  mkDB [Ingredient.mk 1 "Bun" float_hundred "pc" float_zero (50#100)%Q]
       [Recipe.mk 1 1 float_one] [] [] [burger].

(** The order of the specification's scenarios: two lines, 10.00 × 2 and
    5.00 × 1, neither free. *)
Definition two_lines : list OrderItem.t :=
  [OrderItem.mk (Some 1) 1 7 2 (1000#100)%Q false None;
   OrderItem.mk (Some 2) 1 8 1 (500#100)%Q false None].

(** The menu items the lines point to. *)
Definition menu : list MenuItem.t :=
  [MenuItem.mk 7 "Cheeseburger" (1000#100)%Q (20#100)%Q true;
   MenuItem.mk 8 "Soup" (500#100)%Q 0%Q true].

Definition order_of (d : option Discount.t) : Order.t :=
  Order.mk 1 "pending" 0%Q "cash" d.

Definition shop (d : option Discount.t) : DB :=
  mkDB [] [] two_lines [order_of d] menu.

(** Discounts without dates, one of each type. *)
Definition ten_percent : Discount.t :=
  Discount.mk "ten percent" "percentage" 10%Q None None true [].

Definition five_off : Discount.t :=
  Discount.mk "five off" "amount" 5%Q None None true [].

Definition coupon : Discount.t :=
  Discount.mk "welcome" "coupon" 5%Q None None true [].

(** The same order with [discount = None]. *)
Definition without_discount (self : Order.t) : Order.t :=
  Order.mk (Order.id self) (Order.status self) (Order.total_amount self)
           (Order.payment_method self) None.



(** A line of quantity −1 (an item taken back) at 5.00 under the coupon: the
    subtotal is −5.00. *)
Definition returned_item : OrderItem.t :=
  OrderItem.mk (Some 1) 1 7 (-1) (500#100)%Q false None.

Definition returns_db : DB :=
  mkDB [] [] [returned_item] [order_of (Some coupon)] menu.

(** A kitchen: buns are ingredient 1 with [q] in stock, a burger (menu item
    7) takes 2.0 of them; the order of the two lines above has no discount. *)
Definition bun (q : pyfloat) : Ingredient.t :=
  Ingredient.mk 1 "Bun" q "pc" float_eight (50#100)%Q.

Definition bun_line : Recipe.t := Recipe.mk 7 1 float_two.

Definition kitchen (q : pyfloat) : DB :=
  mkDB [bun q] [bun_line] two_lines [order_of None] menu.

Definition new_line (n : Z) : OrderItem.t :=
  OrderItem.mk None 1 7 n (1000#100)%Q false None.

(** The stock [q] of ingredient [k] once the recipe lines [rs] have been
    depleted for an order of [fq] units: one float subtraction per line that
    uses the ingredient, in table order. *)
Definition depleted (fq : pyfloat) (rs : list Recipe.t) (k : Z) (q : pyfloat) : pyfloat :=
  fold_left (λ q r, float_sub q (SFmul prec emax (Recipe.quantity r) fq))
            (filter (λ r, Recipe.ingredient r = k) rs) q.

(** Every recipe line points to an ingredient row (the foreign key holds). *)
Definition stocked (db : DB) (rs : list Recipe.t) : Prop :=
  Forall (λ r, is_Some (get Ingredient.id (Recipe.ingredient r) (ingredients db))) rs.

(** ** Further definitions: constraints and more scenarios *)


(** The instance as [super().save()] leaves it (with its key), and the store
    at that point. *)
Definition recorded (self : OrderItem.t) (db : DB) : OrderItem.t :=
  match snd (super_save self db) with
  | Ok self1 => self1
  | Raise _ => self
  end.

Definition recorded_db (self : OrderItem.t) (db : DB) : DB :=
  fst (super_save self db).

(** A discount that has a start date, one that is switched off, and one
    whose type is the label of the choice instead of its key. *)
Definition happy_hour : Discount.t :=
  Discount.mk "happy hour" "percentage" 10%Q (Some 50) None true [].


Definition mislabelled : Discount.t :=
  Discount.mk "label" "Percentage" 10%Q None None true [].

Definition all_free : Discount.t :=
  Discount.mk "on the house" "percentage" 100%Q None None true [].

Definition nothing_applies : Discount.t :=
  Discount.mk "drinks only" "amount" 5%Q None None true [7; 8].

(** Five off per line, running from instant 50 to instant 150; a free
    third line for the order of the scenarios, and the store with it. *)
Definition five_off_this_week : Discount.t :=
  Discount.mk "five off this week" "amount" 5%Q (Some 50) (Some 150) true [].

Definition on_the_house : OrderItem.t :=
  OrderItem.mk (Some 3) 1 7 1 (1000#100)%Q true None.

Definition shop_with_free_line (d : option Discount.t) : DB :=
  mkDB [] [] (two_lines ++ [on_the_house]) [order_of d] menu.


(** The kitchen with a discount on its order, and a pantry that also stocks
    an ingredient no recipe uses. *)
Definition kitchen_with (d : option Discount.t) (q : pyfloat) : DB :=
  mkDB [bun q] [bun_line] two_lines [order_of d] menu.

Definition salt : Ingredient.t :=
  Ingredient.mk 2 "Salt" float_hundred "g" float_eight (1#100)%Q.

Definition pantry (q : pyfloat) : DB :=
  mkDB [bun q; salt] [bun_line] two_lines [order_of None] menu.


(** * Properties *)

(** Unfolds the plumbing of the store monad. *)
Ltac run_M := unfold mbind, M_bind, mret, M_ret, get_db, lift.

(** ** Tables *)

Section TableFacts.
Context {R : Type} (pk : R → Z).

Lemma get_pk k rows r : get pk k rows = Some r → pk r = k.
Proof.
  unfold get. intros H. apply find_some in H as [_ H]. by apply Z.eqb_eq.
Qed.


Lemma get_put_eq r rows : get pk (pk r) (put pk r rows) = Some r.
Proof.
  unfold get, put. induction rows as [|r' rows IH]; cbn.
  - by rewrite Z.eqb_refl.
  - destruct (pk r' =? pk r) eqn:E; cbn.
    + by rewrite Z.eqb_refl.
    + destruct (existsb _ rows); cbn; by rewrite E.
Qed.

Lemma get_put_ne k r rows : k ≠ pk r → get pk k (put pk r rows) = get pk k rows.
Proof.
  intros Hne. unfold get, put.
  assert ((pk r =? k) = false) as Hr by (apply Z.eqb_neq; congruence).
  destruct (existsb _ rows).
  - induction rows as [|r' rows IH]; [done|]. cbn.
    destruct (pk r' =? pk r) eqn:E.
    + apply Z.eqb_eq in E. rewrite Hr, E, Hr. apply IH.
    + destruct (pk r' =? k); [done|apply IH].
  - induction rows as [|r' rows IH]; cbn.
    + by rewrite Hr.
    + destruct (pk r' =? k); [done|apply IH].
Qed.

Lemma put_put r rows : put pk r (put pk r rows) = put pk r rows.
Proof.
  assert (∀ rows, existsb (λ r', pk r' =? pk r) rows = true →
    let rows' := map (λ r', if pk r' =? pk r then r else r') rows in
    existsb (λ r', pk r' =? pk r) rows' = true
    ∧ map (λ r', if pk r' =? pk r then r else r') rows' = rows') as Hmap.
  { clear rows. induction rows as [|r' rows IH]; [done|]. cbn.
    destruct (pk r' =? pk r) eqn:E; cbn.
    - rewrite Z.eqb_refl. cbn. intros _. split; [done|]. f_equal.
      clear IH. induction rows as [|r'' rows IH]; [done|]. cbn.
      destruct (pk r'' =? pk r) eqn:E'; cbn.
      + rewrite Z.eqb_refl. by f_equal.
      + rewrite E'. by f_equal.
    - rewrite E. intros H. destruct (IH H) as [H1 H2]. split; [done|].
      by f_equal. }
  unfold put. destruct (existsb _ rows) eqn:E.
  - destruct (Hmap rows E) as [H1 H2]. rewrite H1. exact H2.
  - rewrite existsb_app. cbn. rewrite Z.eqb_refl, orb_true_r.
    rewrite map_app. cbn. rewrite Z.eqb_refl. f_equal.
    clear -E. induction rows as [|r' rows IH]; [done|]. cbn in *.
    apply orb_false_iff in E as [E1 E2]. rewrite E1. f_equal. by apply IH.
Qed.
End TableFacts.

(** ** Binary64 arithmetic *)

Lemma fexp_eq e : fexp prec emax e = Z.max (e - 53) (-1074).
Proof. reflexivity. Qed.

Lemma digits2_pos_size p : digits2_pos p = Pos.size p.
Proof. induction p as [p IH|p IH|]; simpl; by rewrite ?IH. Qed.

Lemma digits2_pos_log2 p : Z.pos (digits2_pos p) = Z.log2 (Z.pos p) + 1.
Proof.
  rewrite digits2_pos_size. destruct p as [p|p|]; simpl; try lia.
Qed.

Lemma Zdigits2_log2 m : 0 < m → Zdigits2 m = Z.log2 m + 1.
Proof. destruct m as [|p|p]; try lia. intros _. apply digits2_pos_log2. Qed.

Lemma shr_1_m mrs : 0 ≤ shr_m mrs → shr_m (shr_1 mrs) = Z.div2 (shr_m mrs).
Proof.
  destruct mrs as [m r s]. simpl. destruct m as [|[p|p|]|p]; simpl; try done; lia.
Qed.

Lemma iter_pos_shr_m k : ∀ mrs,
  0 ≤ shr_m mrs → shr_m (SpecFloat.iter_pos shr_1 k mrs) = Z.shiftr (shr_m mrs) (Z.pos k).
Proof.
  induction k as [k IH|k IH|]; intros mrs Hm; simpl SpecFloat.iter_pos.
  - assert (0 ≤ shr_m (shr_1 mrs)) as H1.
    { rewrite shr_1_m, Z.div2_spec by done. by apply Z.shiftr_nonneg. }
    assert (0 ≤ shr_m (SpecFloat.iter_pos shr_1 k (shr_1 mrs))) as H2.
    { rewrite IH by done. by apply Z.shiftr_nonneg. }
    rewrite IH, IH, shr_1_m, Z.div2_spec by done.
    rewrite !Z.shiftr_shiftr by lia. f_equal. lia.
  - assert (0 ≤ shr_m (SpecFloat.iter_pos shr_1 k mrs)) as H2.
    { rewrite IH by done. by apply Z.shiftr_nonneg. }
    rewrite IH, IH by done. rewrite Z.shiftr_shiftr by lia. f_equal. lia.
  - rewrite shr_1_m, Z.div2_spec by done. done.
Qed.

Lemma shr_record_of_loc_m m l : shr_m (shr_record_of_loc m l) = m.
Proof. by destruct l as [|[]]. Qed.

Lemma shr_fexp_spec m e l :
  0 ≤ m →
  let k := Z.max 0 (fexp prec emax (Zdigits2 m + e) - e) in
  shr_m (fst (shr_fexp prec emax m e l)) = Z.shiftr m k
  ∧ snd (shr_fexp prec emax m e l) = e + k.
Proof.
  intros Hm k. unfold shr_fexp, shr. subst k.
  destruct (fexp prec emax (Zdigits2 m + e) - e) as [|p|p] eqn:E; cbn [fst snd].
  - rewrite shr_record_of_loc_m, Z.shiftr_0_r. split; [done|lia].
  - rewrite iter_pos_shr_m by by rewrite shr_record_of_loc_m.
    rewrite shr_record_of_loc_m. rewrite Z.max_r by lia. done.
  - rewrite shr_record_of_loc_m. rewrite Z.max_l by lia.
    rewrite Z.shiftr_0_r. split; [done|lia].
Qed.

Lemma round_nearest_even_bounds m l :
  m ≤ round_nearest_even m l ≤ m + 1.
Proof.
  destruct l as [|[]]; simpl; try lia. destruct (Z.even m); lia.
Qed.

(** The two normalisation steps of [binary_round_aux], with the rounded
    mantissa between them left abstract. *)
Lemma binary_round_aux_spec sx mx ex lx :
  0 < mx →
  ∃ k1 m2 k2,
    k1 = Z.max 0 (Z.max (Z.log2 mx + 1 + ex - 53) (-1074) - ex)
    ∧ Z.shiftr mx k1 ≤ m2 ≤ Z.shiftr mx k1 + 1
    ∧ k2 = Z.max 0 (Z.max (Zdigits2 m2 + (ex + k1) - 53) (-1074) - (ex + k1))
    ∧ binary_round_aux prec emax sx mx ex lx
      = match Z.shiftr m2 k2 with
        | 0 => S754_zero sx
        | Z.pos m =>
            if ex + k1 + k2 <=? emax - prec
            then S754_finite sx m (ex + k1 + k2) else S754_infinity sx
        | Z.neg _ => S754_nan
        end.
Proof.
  intros Hmx. unfold binary_round_aux.
  destruct (shr_fexp_spec mx ex lx) as [H1 H2]; [lia|].
  rewrite fexp_eq, (Zdigits2_log2 mx) in H1, H2 by done.
  destruct (shr_fexp prec emax mx ex lx) as [mrs' e'] eqn:E1.
  cbn [fst snd] in H1, H2.
  set (m2 := round_nearest_even (shr_m mrs') (loc_of_shr_record mrs')).
  pose proof (round_nearest_even_bounds (shr_m mrs') (loc_of_shr_record mrs')) as Hb.
  fold m2 in Hb. rewrite H1 in Hb.
  eexists _, m2, _. split; [reflexivity|]. split; [exact Hb|].
  assert (0 ≤ m2) as Hm2.
  { assert (0 ≤ Z.shiftr mx (Z.max 0 (Z.max (Z.log2 mx + 1 + ex - 53) (-1074) - ex)))
      by (apply Z.shiftr_nonneg; lia). lia. }
  destruct (shr_fexp_spec m2 e' loc_Exact) as [H3 H4]; [done|].
  rewrite fexp_eq in H3, H4.
  destruct (shr_fexp prec emax m2 e' loc_Exact) as [mrs'' e''] eqn:E2.
  cbn [fst snd] in H3, H4. rewrite H3, H4, H2. split; [reflexivity|].
  by rewrite Z.add_assoc.
Qed.

Lemma shiftr_pos m k : 0 < m → k ≤ Z.log2 m → 0 < Z.shiftr m k.
Proof.
  intros Hm Hk.
  assert (0 ≤ Z.shiftr m k) as H0 by (apply Z.shiftr_nonneg; lia).
  assert (Z.shiftr m k ≠ 0); [|lia].
  rewrite Z.shiftr_eq_0_iff. lia.
Qed.


Lemma binary_round_aux_valid sx mx ex lx :
  0 < mx → ex ≤ fexp prec emax (Zdigits2 mx + ex) →
  valid_binary prec emax (binary_round_aux prec emax sx mx ex lx) = true.
Proof.
  intros Hmx Hex. rewrite fexp_eq, (Zdigits2_log2 mx) in Hex by done.
  destruct (binary_round_aux_spec sx mx ex lx Hmx)
    as (k1 & m2 & k2 & Hk1 & Hm2 & Hk2 & ->).
  pose proof (Z.log2_nonneg mx) as Hl.
  destruct (Z.shiftr m2 k2) as [|m|m] eqn:E3; [done| |done].
  destruct (_ <=? _) eqn:Ele; [|done].
  assert (0 ≤ Z.shiftr mx k1) as Hs by (apply Z.shiftr_nonneg; lia).
  assert (0 < m2) as H2.
  { destruct (Z.eq_dec m2 0) as [->|]; [|lia]. by rewrite Z.shiftr_0_l in E3. }
  rewrite (Zdigits2_log2 m2) in Hk2 by done.
  assert (k2 ≤ Z.log2 m2) as Hle.
  { destruct (Z_le_gt_dec k2 (Z.log2 m2)); [done|].
    rewrite Z.shiftr_eq_0 in E3; [done|lia|lia]. }
  assert (Z.pos (digits2_pos m) = Z.log2 m2 - k2 + 1) as Hd.
  { rewrite digits2_pos_log2, <- E3, Z.log2_shiftr by done. lia. }
  assert (Z.log2 (Z.shiftr mx k1) ≤ Z.log2 m2) as Hmono
    by (apply Z.log2_le_mono; lia).
  cbn. unfold bounded, canonical_mantissa. rewrite Ele, andb_true_r.
  apply Z.eqb_eq. rewrite fexp_eq, Hd.
  destruct (Z.eq_dec (Z.shiftr mx k1) 0) as [Hz|Hnz].
  - apply Z.shiftr_eq_0_iff in Hz. lia.
  - rewrite Z.log2_shiftr in Hmono by done. lia.
Qed.

Lemma pos_iter_xO m d : Z.pos (Pos.iter xO m d) = Z.pos m * 2 ^ Z.pos d.
Proof.
  rewrite (Pos.iter_swap_gen _ _ Z.pos xO (Z.mul 2)) by done.
  rewrite <- Z.shiftl_mul_pow2 by lia. done.
Qed.

Lemma shl_align_spec mx ex e' :
  snd (shl_align mx ex e') = Z.min ex e'
  ∧ Z.pos (fst (shl_align mx ex e')) = Z.pos mx * 2 ^ (ex - Z.min ex e').
Proof.
  unfold shl_align. destruct (e' - ex) as [|d|d] eqn:E; cbn [fst snd].
  - rewrite Z.min_l by lia. rewrite Z.sub_diag. lia.
  - rewrite Z.min_l by lia. rewrite Z.sub_diag. lia.
  - rewrite Z.min_r by lia. split; [done|].
    rewrite pos_iter_xO. f_equal. f_equal. lia.
Qed.

Lemma Zdigits2_mul_pow2 m n :
  0 < m → 0 ≤ n → Zdigits2 (m * 2 ^ n) = Zdigits2 m + n.
Proof.
  intros Hm Hn. rewrite !Zdigits2_log2; [|done|].
  - rewrite Z.log2_mul_pow2 by done. lia.
  - apply Z.mul_pos_pos; [done|]. by apply Z.pow_pos_nonneg.
Qed.

Lemma binary_round_valid sx mx ex :
  valid_binary prec emax (binary_round prec emax sx mx ex) = true.
Proof.
  unfold binary_round.
  destruct (shl_align_spec mx ex (fexp prec emax (Z.pos (digits2_pos mx) + ex)))
    as [He Hm].
  destruct (shl_align mx ex _) as [mz ez]. cbn [fst snd] in He, Hm.
  apply binary_round_aux_valid; [done|].
  rewrite Hm, Zdigits2_mul_pow2 by lia.
  change (Zdigits2 (Z.pos mx)) with (Z.pos (digits2_pos mx)).
  replace (Z.pos (digits2_pos mx) + (ex - Z.min ex (fexp prec emax (Z.pos (digits2_pos mx) + ex))) + ez)
    with (Z.pos (digits2_pos mx) + ex) by lia.
  lia.
Qed.


Lemma binary_normalize_valid m e szero :
  valid_binary prec emax (binary_normalize prec emax m e szero) = true.
Proof. destruct m; [done| |]; apply binary_round_valid. Qed.



Lemma SFsub_valid x y :
  valid_binary prec emax x = true → valid_binary prec emax y = true →
  valid_binary prec emax (SFsub prec emax x y) = true.
Proof.
  destruct x as [sx|sx| |sx mx ex], y as [sy|sy| |sy my ey]; try done;
    cbn [SFsub]; intros Hx Hy.
  - by destruct sx, sy.
  - by destruct sx, sy.
  - apply binary_normalize_valid.
Qed.




(** An integer that fits a 64-bit column converts to a finite float, so the
    product with a recipe quantity does not raise. *)
Lemma binary_round_int64 sx p :
  Z.pos p < 2 ^ 63 →
  ∃ m e, binary_round prec emax sx p 0 = S754_finite sx m e.
Proof.
  intros Hp. unfold binary_round.
  assert (Z.log2 (Z.pos p) < 63) as Hlog by (apply Z.log2_lt_pow2; lia).
  pose proof (Z.log2_nonneg (Z.pos p)) as Hl0.
  destruct (shl_align_spec p 0 (fexp prec emax (Z.pos (digits2_pos p) + 0)))
    as [He Hm].
  destruct (shl_align p 0 _) as [mz ez]. cbn [fst snd] in He, Hm.
  rewrite fexp_eq, digits2_pos_log2 in He, Hm.
  destruct (binary_round_aux_spec sx (Z.pos mz) ez loc_Exact)
    as (k1 & m2 & k2 & Hk1 & Hm2 & Hk2 & ->); [done|].
  assert (Z.log2 (Z.pos mz) = Z.log2 (Z.pos p) + (0 - ez)) as Hlz.
  { rewrite Hm, Z.log2_mul_pow2 by lia. lia. }
  rewrite Hlz in Hk1.
  assert (0 < Z.shiftr (Z.pos mz) k1) as H1 by (apply shiftr_pos; lia).
  assert (Z.log2 (Z.shiftr (Z.pos mz) k1) = Z.log2 (Z.pos mz) - k1) as Hl1.
  { rewrite Z.log2_shiftr by done. lia. }
  assert (0 < m2) as H2 by lia.
  assert (Z.log2 m2 ≤ Z.log2 (Z.shiftr (Z.pos mz) k1) + 1) as Hl2.
  { etransitivity; [apply Z.log2_le_mono; apply Hm2|].
    apply (Z.log2_succ_le (Z.shiftr (Z.pos mz) k1)). }
  assert (Z.log2 (Z.shiftr (Z.pos mz) k1) ≤ Z.log2 m2) as Hl3
    by (apply Z.log2_le_mono; lia).
  rewrite (Zdigits2_log2 m2) in Hk2 by done.
  assert (0 < Z.shiftr m2 k2) as H3 by (apply shiftr_pos; lia).
  destruct (Z.shiftr m2 k2) as [|m|m]; try lia.
  assert ((ez + k1 + k2 <=? emax - prec) = true) as ->.
  { apply Z.leb_le. change (emax - prec) with 971. lia. }
  by eexists _, _.
Qed.

Lemma float_of_int_int64 z :
  - 2 ^ 63 ≤ z < 2 ^ 63 → ∃ f, float_of_int z = Ok f.
Proof.
  intros Hz. unfold float_of_int. destruct z as [|p|p]; cbn [binary_normalize].
  - by eexists.
  - destruct (binary_round_int64 false p) as (m & e & ->); [lia|]. by eexists.
  - destruct (Z.eq_dec (Z.neg p) (- 2 ^ 63)) as [Heq|Hne].
    + assert (p = (2 ^ 63)%positive) as -> by lia. vm_compute. by eexists.
    + destruct (binary_round_int64 true p) as (m & e & ->); [lia|]. by eexists.
Qed.

(** ** Name lookup and [Discount.is_valid] *)

Lemma timezone_unbound : load_global models_py "timezone" = Raise (NameError "timezone").
Proof. reflexivity. Qed.

Lemma load_global_bound ns x : In x ns → load_global ns x = Ok tt.
Proof.
  intros Hin. unfold load_global.
  destruct (existsb (String.eqb x) (ns ++ builtins)) eqn:E; [done|].
  exfalso. apply not_true_iff_false in E. apply E.
  apply existsb_exists. exists x. split.
  - apply in_or_app. by left.
  - apply String.eqb_refl.
Qed.

(** Without a date the clock is never read, so the namespace does not
    matter. *)
Lemma is_valid_undated ns clock d :
  Discount.start_date d = None → Discount.end_date d = None →
  is_valid ns clock d = Ok (Discount.is_active d).
Proof.
  intros Hs He. unfold is_valid. rewrite Hs, He.
  by destruct (Discount.is_active d).
Qed.


(** An active discount with a date makes [is_valid] read the clock, and in
    the module as it is written that raises. *)
Lemma is_valid_dated_raises clock d :
  Discount.is_active d = true →
  (is_Some (Discount.start_date d) ∨ is_Some (Discount.end_date d)) →
  is_valid models_py clock d = Raise (NameError "timezone").
Proof.
  intros Ha Hd. unfold is_valid. rewrite Ha. simpl.
  destruct (Discount.start_date d) as [s|]; [done|].
  destruct (Discount.end_date d) as [e|]; [done|].
  destruct Hd as [[? ?]|[? ?]]; discriminate.
Qed.

(** Whenever [is_valid] returns in [models.py], the answer does not depend
    on the clock: it is [is_active] and the discount has no date. *)
Lemma is_valid_returns clock d b :
  is_valid models_py clock d = Ok b →
  b = Discount.is_active d
  ∧ (b = true → Discount.start_date d = None ∧ Discount.end_date d = None).
Proof.
  unfold is_valid. destruct (Discount.is_active d); simpl.
  - destruct (Discount.start_date d) as [s|]; [done|].
    destruct (Discount.end_date d) as [e|]; [done|].
    simpl. intros [= <-]. done.
  - intros [= <-]. done.
Qed.

Lemma is_valid_clock_free c1 c2 d b :
  is_valid models_py c1 d = Ok b → is_valid models_py c2 d = Ok b.
Proof.
  unfold is_valid. destruct (Discount.is_active d); simpl; [|done].
  destruct (Discount.start_date d) as [s|]; [done|].
  by destruct (Discount.end_date d) as [e|].
Qed.

(** In a module that binds [timezone], [is_valid] is the window test. *)
Lemma is_valid_with_timezone ns clock d :
  In "timezone"%string ns → is_valid ns clock d = Ok (in_window d clock).
Proof.
  intros Hin. unfold is_valid, in_window, date_and, timezone_now.
  rewrite (load_global_bound _ _ Hin).
  destruct (Discount.is_active d); simpl; [|done].
  destruct (Discount.start_date d) as [s|]; simpl.
  - rewrite Z.gtb_ltb, Z.ltb_antisym.
    destruct (s <=? clock); simpl; [|done].
    destruct (Discount.end_date d) as [e|]; simpl; [|done].
    rewrite Z.ltb_antisym. by destruct (clock <=? e).
  - destruct (Discount.end_date d) as [e|]; simpl; [|done].
    rewrite Z.ltb_antisym. by destruct (clock <=? e).
Qed.

(** C4, at the failing input: an active discount that started at instant 50,
    asked at instant 100.  The window test says [true]; the call raises
    [NameError], because [models.py] never imports [timezone]. *)
Theorem is_valid_started_discount_raises :
  let d := Discount.mk "happy hour" "percentage" 10%Q (Some 50) None true [] in
  in_window d 100 = true
  ∧ is_valid models_py 100 d = Raise (NameError "timezone").
Proof. split; reflexivity. Qed.

(** ** [MenuItem.caluclate_cost] *)

Lemma caluclate_cost_no_recipe db self :
  recipe_items db (MenuItem.id self) = [] →
  caluclate_cost db self = Ok (0 + MenuItem.misc_cost self)%Q.
Proof. intros H. unfold caluclate_cost. by rewrite H. Qed.

(** The first recipe line already stops the sum: its ingredient's unit cost
    is a decimal and its quantity a float. *)
Lemma caluclate_cost_recipe_raises db self r rs i :
  recipe_items db (MenuItem.id self) = r :: rs →
  get Ingredient.id (Recipe.ingredient r) (ingredients db) = Some i →
  caluclate_cost db self = Raise (TypeError "*" "decimal.Decimal" "float").
Proof.
  intros H Hi. unfold caluclate_cost. rewrite H. simpl.
  unfold recipe_ingredient. by rewrite Hi.
Qed.

(** C3, at the failing input: the Burger's cost is not 0.70, the call raises
    [TypeError] at the product of the Bun's unit cost and the line's
    quantity. *)
Theorem caluclate_cost_burger_raises :
  float_of_int 1 = Ok float_one
  ∧ caluclate_cost burger_db burger = Raise (TypeError "*" "decimal.Decimal" "float").
Proof. split; reflexivity. Qed.

(** ** Sums of decimals *)

Lemma fold_left_Qplus_map {A} (f : A → Q) xs a :
  fold_left Qplus (map f xs) a = fold_left (λ acc x, (acc + f x)%Q) xs a.
Proof. revert a. induction xs as [|x xs IH]; intros a; simpl; [done|]. apply IH. Qed.

Lemma fold_left_sum_over {A} (f : A → Q) xs a :
  (fold_left (λ acc x, (acc + f x)%Q) xs a == a + sum_over f xs)%Q.
Proof.
  revert a. induction xs as [|x xs IH]; intros a; simpl.
  - lra.
  - rewrite IH. lra.
Qed.

Lemma py_sum_map {A} (f : A → Q) xs : (py_sum (map f xs) == sum_over f xs)%Q.
Proof.
  unfold py_sum. rewrite fold_left_Qplus_map, fold_left_sum_over. lra.
Qed.

Lemma sum_over_ext {A} (f g : A → Q) xs :
  (∀ x, f x == g x)%Q → (sum_over f xs == sum_over g xs)%Q.
Proof.
  intros H. induction xs as [|x xs IH]; simpl; [lra|]. rewrite IH, (H x). lra.
Qed.

Lemma sum_over_filter {A} (P : A → Prop) `{!∀ x, Decision (P x)} (f : A → Q) xs :
  (sum_over f (filter P xs) == sum_over (λ x, if decide (P x) then f x else 0) xs)%Q.
Proof.
  induction xs as [|x xs IH]; simpl; [lra|].
  rewrite filter_cons. destruct (decide (P x)); simpl; rewrite IH; lra.
Qed.

Lemma sum_over_const {A} (c : Q) (xs : list A) :
  (sum_over (λ _, c) xs == c * inject_Z (Z.of_nat (length xs)))%Q.
Proof.
  induction xs as [|x xs IH].
  - cbn. change (inject_Z (Z.of_nat 0)) with 0%Q. lra.
  - cbn [sum_over length]. rewrite IH, Nat2Z.inj_succ.
    unfold Z.succ. rewrite inject_Z_plus. change (inject_Z 1) with 1%Q. lra.
Qed.

Lemma sum_over_zero {A} (xs : list A) : (sum_over (λ _, 0) xs == 0)%Q.
Proof. induction xs as [|x xs IH]; simpl; [lra|]. rewrite IH. lra. Qed.

Lemma sum_over_app {A} (f : A → Q) xs ys :
  (sum_over f (xs ++ ys) == sum_over f xs + sum_over f ys)%Q.
Proof. induction xs as [|x xs IH]; simpl; [lra|]. rewrite IH. lra. Qed.

(** [max(x, 0)] as the code writes it is the greater of the two. *)
Lemma py_max_0 x : (py_max x 0 == Qmax 0 x)%Q.
Proof.
  unfold py_max. destruct (Qle_bool 0 x) eqn:E.
  - apply Qle_bool_iff in E. symmetry. by apply Q.max_r.
  - assert (x < 0)%Q as Hlt.
    { apply Qnot_le_lt. intros Hle. apply Qle_bool_iff in Hle. congruence. }
    symmetry. apply Q.max_l. lra.
Qed.

Lemma py_max_0_nonneg x : (0 <= py_max x 0)%Q.
Proof.
  unfold py_max. destruct (Qle_bool 0 x) eqn:E; [|lra].
  by apply Qle_bool_iff in E.
Qed.

(** ** The discount loop *)

Lemma not_excluded_spec d l :
  not_excluded d l = true ↔ OrderItem.menu_item l ∉ Discount.excluded_items d.
Proof.
  unfold not_excluded. rewrite negb_true_iff, <- not_true_iff_false.
  apply not_iff_compat. rewrite existsb_exists. split.
  - intros (k & Hin & Hk). apply Z.eqb_eq in Hk. subst k.
    by apply list_elem_of_In.
  - intros Hin. exists (OrderItem.menu_item l). split.
    + by apply list_elem_of_In.
    + apply Z.eqb_refl.
Qed.

Lemma discount_step_line d acc l :
  (discount_step d acc l
   == acc + (if decide (OrderItem.menu_item l ∉ Discount.excluded_items d)
             then line_discount d l else 0))%Q.
Proof.
  unfold discount_step, line_discount, line_percentage.
  destruct (not_excluded d l) eqn:E.
  - apply not_excluded_spec in E. rewrite decide_True by done.
    destruct (String.eqb _ "amount"); [lra|].
    destruct (String.eqb _ "percentage"); lra.
  - apply not_true_iff_false in E. rewrite not_excluded_spec in E.
    rewrite decide_False by done. lra.
Qed.

Lemma discount_step_proper d a b l :
  (a == b)%Q → (discount_step d a l == discount_step d b l)%Q.
Proof. intros H. rewrite !discount_step_line, H. lra. Qed.

Lemma discount_loop d its a :
  (fold_left (discount_step d) its a
   == a + sum_over (line_discount d) (qualifying d its))%Q.
Proof.
  unfold qualifying. rewrite sum_over_filter.
  revert a. induction its as [|l its IH]; intros a; simpl; [lra|].
  rewrite IH, discount_step_line. lra.
Qed.

(** ** [Order.update_total_amount] *)

(** One call, written out: the discount is computed from the lines in the
    store; when that raises nothing is written, otherwise the instance gets
    the clamped total and its row is saved. *)
Lemma update_total_amount_run ns clock self db :
  update_total_amount ns clock self db =
  match discount_amount ns clock self (items db (Order.id self)) with
  | Ok da =>
      let self' :=
        set_total_amount self
          (py_max (py_sum (map subtotal (items db (Order.id self))) - da) 0) in
      (saved_order self' db, Ok self')
  | Raise e => (db, Raise e)
  end.
Proof.
  unfold update_total_amount, Order_save. run_M.
  by destruct (discount_amount ns clock self (items db (Order.id self))).
Qed.

Lemma subtotal_line_charge its :
  (py_sum (map subtotal its) == sum_over line_charge its)%Q.
Proof. apply py_sum_map. Qed.

Lemma discount_amount_valid ns clock self d its :
  Order.discount self = Some d → is_valid ns clock d = Ok true →
  discount_amount ns clock self its = Ok (fold_left (discount_step d) its 0%Q).
Proof.
  intros Hd Hv. unfold discount_amount. rewrite Hd.
  unfold mbind, result_bind. by rewrite Hv.
Qed.

Lemma discount_amount_none ns clock self its :
  Order.discount self = None → discount_amount ns clock self its = Ok 0%Q.
Proof. intros Hd. unfold discount_amount. by rewrite Hd. Qed.

(** In [models.py] the discount computation can only fail on the clock. *)
Lemma discount_amount_raises clock self its e :
  discount_amount models_py clock self its = Raise e → e = NameError "timezone".
Proof.
  unfold discount_amount. destruct (Order.discount self) as [d|]; [|done].
  unfold mbind, result_bind, is_valid.
  destruct (Discount.is_active d); simpl; [|done].
  destruct (Discount.start_date d); simpl; [congruence|].
  destruct (Discount.end_date d); simpl; [congruence|done].
Qed.

Lemma discount_amount_clock_free c1 c2 self its da :
  discount_amount models_py c1 self its = Ok da →
  discount_amount models_py c2 self its = Ok da.
Proof.
  unfold discount_amount. destruct (Order.discount self) as [d|]; [|done].
  unfold mbind, result_bind.
  destruct (is_valid models_py c1 d) as [b|] eqn:E; [|done].
  by rewrite (is_valid_clock_free c1 c2 d b E).
Qed.

(** The total a valid discount leaves, whatever its type. *)
Lemma update_total_amount_valid ns clock self db d :
  Order.discount self = Some d → is_valid ns clock d = Ok true →
  ∃ self',
    update_total_amount ns clock self db = (saved_order self' db, Ok self')
    ∧ Order.id self' = Order.id self
    ∧ Order.discount self' = Order.discount self
    ∧ (Order.total_amount self'
       == Qmax 0 (sum_over line_charge (items db (Order.id self))
                  - sum_over (line_discount d)
                             (qualifying d (items db (Order.id self)))))%Q.
Proof.
  intros Hd Hv. rewrite update_total_amount_run.
  rewrite (discount_amount_valid _ _ _ _ _ Hd Hv). cbn zeta.
  eexists. split; [reflexivity|]. repeat split.
  cbn [set_total_amount Order.total_amount].
  rewrite py_max_0, subtotal_line_charge, discount_loop.
  apply Q.max_compat; [reflexivity|]. lra.
Qed.

(** In a module that binds [timezone] the same total is left for every
    discount inside its window. *)
Lemma update_total_amount_in_window ns clock self db d :
  In "timezone"%string ns →
  Order.discount self = Some d → in_window d clock = true →
  ∃ self',
    update_total_amount ns clock self db = (saved_order self' db, Ok self')
    ∧ (Order.total_amount self'
       == Qmax 0 (sum_over line_charge (items db (Order.id self))
                  - sum_over (line_discount d)
                             (qualifying d (items db (Order.id self)))))%Q.
Proof.
  intros Hns Hd Hw.
  destruct (update_total_amount_valid ns clock self db d Hd)
    as (self' & Hrun & _ & _ & Htot).
  - by rewrite is_valid_with_timezone, Hw.
  - by exists self'.
Qed.

Lemma update_total_amount_no_discount ns clock self db :
  Order.discount self = None →
  ∃ self',
    update_total_amount ns clock self db = (saved_order self' db, Ok self')
    ∧ (Order.total_amount self'
       == Qmax 0 (sum_over line_charge (items db (Order.id self))))%Q.
Proof.
  intros Hd. rewrite update_total_amount_run.
  rewrite (discount_amount_none _ _ _ _ Hd). cbn zeta.
  eexists. split; [reflexivity|].
  cbn [set_total_amount Order.total_amount].
  rewrite py_max_0, subtotal_line_charge.
  apply Q.max_compat; [reflexivity|]. lra.
Qed.

Lemma line_discount_percentage d l :
  Discount.discount_type d = "percentage"%string →
  line_discount d l = line_percentage d l.
Proof. intros H. unfold line_discount. by rewrite H. Qed.

Lemma line_discount_amount d l :
  Discount.discount_type d = "amount"%string →
  line_discount d l = Discount.discount_value d.
Proof. intros H. unfold line_discount. by rewrite H. Qed.

Lemma line_discount_coupon d l :
  Discount.discount_type d = "coupon"%string → line_discount d l = 0%Q.
Proof. intros H. unfold line_discount. by rewrite H. Qed.

(** With a percentage discount for which [is_valid()] returns [True],
    [update_total_amount] returns and leaves [max(0, subtotal − D)] in
    [total_amount], where the subtotal charges every line that is not free
    its price times its quantity and [D] adds (price × value / 100) ×
    quantity over the lines whose menu item is not excluded. *)
Lemma update_total_amount_percentage_when_valid clock self db d :
  Order.discount self = Some d →
  is_valid models_py clock d = Ok true →
  Discount.discount_type d = "percentage"%string →
  ∃ self',
    update_total_amount models_py clock self db = (saved_order self' db, Ok self')
    ∧ (Order.total_amount self'
       == Qmax 0 (sum_over line_charge (items db (Order.id self))
                  - sum_over (line_percentage d)
                             (qualifying d (items db (Order.id self)))))%Q.
Proof.
  intros Hd Hv Ht.
  destruct (update_total_amount_valid _ clock self db d Hd Hv)
    as (self' & Hrun & Hid & _ & Htot).
  exists self'. split; [done|].
  rewrite Htot. apply Q.max_compat; [reflexivity|].
  rewrite (sum_over_ext (line_discount d) (line_percentage d)); [reflexivity|].
  intros l. by rewrite line_discount_percentage.
Qed.

(** C1: the order of the specification's scenario with its ten percent
    discount given a start date.  At the time of the call the discount is
    active and inside its window, so it is valid, and [max(0, subtotal − D)]
    is 22.50; but [update_total_amount] raises [NameError] on [timezone],
    whatever the time, and sets and saves no total. *)
Theorem update_total_amount_percentage_dated_raises :
  Discount.discount_type happy_hour = "percentage"%string
  ∧ in_window happy_hour 100 = true
  ∧ items (shop (Some happy_hour)) 1 = two_lines
  ∧ (Qmax 0 (sum_over line_charge two_lines
             - sum_over (line_percentage happy_hour)
                        (qualifying happy_hour two_lines)) == 225 # 10)%Q
  ∧ ∀ clock,
      update_total_amount models_py clock (order_of (Some happy_hour))
                          (shop (Some happy_hour))
      = (shop (Some happy_hour), Raise (NameError "timezone")).
Proof. repeat split. Qed.

(** The three order scenarios of the specification: 25.00 without a
    discount, 22.50 with ten percent on both lines, 23.00 when the 5.00 item
    is excluded. *)
Lemma scenario_totals :
  let excl := Discount.mk "ten percent" "percentage" 10%Q None None true [8] in
  (∃ t, total_after models_py 100 (order_of None) (shop None) = Ok t
        ∧ (t == 25)%Q)
  ∧ (∃ t, total_after models_py 100 (order_of (Some ten_percent))
                      (shop (Some ten_percent)) = Ok t
          ∧ (t == 225 # 10)%Q)
  ∧ (∃ t, total_after models_py 100 (order_of (Some excl)) (shop (Some excl)) = Ok t
          ∧ (t == 23)%Q).
Proof. repeat split; eexists; (split; [vm_compute; reflexivity| reflexivity]). Qed.

(** With an amount discount for which [is_valid()] returns [True], the
    accumulated discount is the flat value times the number of lines whose
    menu item is not excluded; the quantities of the lines do not enter, so
    replacing them changes nothing. *)
Lemma discount_amount_flat_when_valid clock self d lines :
  Order.discount self = Some d →
  is_valid models_py clock d = Ok true →
  Discount.discount_type d = "amount"%string →
  ∃ da,
    discount_amount models_py clock self lines = Ok da
    ∧ (da == Discount.discount_value d
             * inject_Z (Z.of_nat (length (qualifying d lines))))%Q
    ∧ ∀ q : OrderItem.t → Z,
        discount_amount models_py clock self
          (map (λ l, OrderItem.mk (OrderItem.id l) (OrderItem.order l)
                       (OrderItem.menu_item l) (q l) (OrderItem.price l)
                       (OrderItem.is_free l) (OrderItem.order_cache l)) lines)
        = Ok da.
Proof.
  intros Hd Hv Ht.
  exists (fold_left (discount_step d) lines 0%Q). split; [|split].
  - by apply discount_amount_valid.
  - rewrite discount_loop.
    rewrite (sum_over_ext (line_discount d) (λ _, Discount.discount_value d)).
    + rewrite sum_over_const. lra.
    + intros l. by rewrite line_discount_amount.
  - intros q. rewrite (discount_amount_valid _ _ _ _ _ Hd Hv). f_equal.
    generalize 0%Q. induction lines as [|l ls IH]; intros a; [done|].
    cbn [map fold_left]. rewrite <- IH. f_equal.
    unfold discount_step, not_excluded. cbn [OrderItem.menu_item].
    by rewrite Ht.
Qed.

(** C5: the order of the specification's scenario with five off per line,
    the discount running from a start date to an end date.  At the time of
    the call the discount is active and inside its window, so it is valid,
    and the flat value once for each of the two lines is 10.00; but no
    discount is accumulated: the validity check raises [NameError] on
    [timezone], whatever the time, and [update_total_amount] ends there. *)
Theorem discount_amount_flat_dated_raises :
  Discount.discount_type five_off_this_week = "amount"%string
  ∧ in_window five_off_this_week 100 = true
  ∧ items (shop (Some five_off_this_week)) 1 = two_lines
  ∧ (Discount.discount_value five_off_this_week
     * inject_Z (Z.of_nat (length (qualifying five_off_this_week two_lines)))
     == 10)%Q
  ∧ ∀ clock,
      discount_amount models_py clock (order_of (Some five_off_this_week))
                      two_lines
      = Raise (NameError "timezone")
      ∧ update_total_amount models_py clock (order_of (Some five_off_this_week))
                            (shop (Some five_off_this_week))
        = (shop (Some five_off_this_week), Raise (NameError "timezone")).
Proof. repeat split. Qed.

(** C6: a call of [update_total_amount] either returns, and then the total
    it has set and saved is not negative, or raises on the clock before
    anything is assigned or written. *)
Theorem total_amount_never_negative clock self db :
  match update_total_amount models_py clock self db with
  | (db', Ok self') =>
      (0 <= Order.total_amount self')%Q
      ∧ get Order.id (Order.id self) (orders db') = Some self'
  | (db', Raise e) => db' = db ∧ e = NameError "timezone"
  end.
Proof.
  rewrite update_total_amount_run.
  destruct (discount_amount models_py clock self (items db (Order.id self)))
    as [da|e] eqn:E.
  - cbn zeta. split.
    + apply py_max_0_nonneg.
    + apply (get_put_eq Order.id (set_total_amount self _)).
  - split; [done|]. by apply discount_amount_raises in E.
Qed.

(** A discount larger than the subtotal: 100 off each of two lines worth 25
    in all leaves a total of 0. *)
Lemma total_clamped_scenario :
  let d := Discount.mk "hundred off" "amount" 100%Q None None true [] in
  total_after models_py 100 (order_of (Some d)) (shop (Some d)) = Ok 0%Q.
Proof. reflexivity. Qed.

(** C7: when a call of [update_total_amount] returns, a second call on the
    instance and the store it left, at any later instant, returns the same
    instance and leaves the same store; when the first call raises it has
    changed nothing. *)
Theorem update_total_amount_idempotent c1 c2 self db :
  match update_total_amount models_py c1 self db with
  | (db1, Ok self1) =>
      update_total_amount models_py c2 self1 db1 = (db1, Ok self1)
  | (db1, Raise _) => db1 = db
  end.
Proof.
  rewrite update_total_amount_run.
  destruct (discount_amount models_py c1 self (items db (Order.id self)))
    as [da|e] eqn:E; [|done].
  cbv beta iota zeta. rewrite update_total_amount_run.
  change (discount_amount models_py c2 _ _)
    with (discount_amount models_py c2 self (items db (Order.id self))).
  rewrite (discount_amount_clock_free c1 c2 _ _ _ E).
  cbv beta iota zeta. unfold set_total_amount, saved_order. cbn.
  by rewrite put_put.
Qed.

(** The same at one instant in any namespace: with [timezone] bound the
    answer of [is_valid] may change with the clock, not within an instant. *)
Lemma update_total_amount_twice ns clock self db db1 self1 :
  update_total_amount ns clock self db = (db1, Ok self1) →
  update_total_amount ns clock self1 db1 = (db1, Ok self1).
Proof.
  rewrite update_total_amount_run.
  destruct (discount_amount ns clock self (items db (Order.id self)))
    as [da|e] eqn:E; [|done].
  cbv beta iota zeta. intros [= <- <-]. rewrite update_total_amount_run.
  change (discount_amount ns clock _ _)
    with (discount_amount ns clock self (items db (Order.id self))).
  rewrite E. cbv beta iota zeta. unfold set_total_amount, saved_order. cbn.
  by rewrite put_put.
Qed.

(** ** Coupons *)

Lemma coupon_loop d its a :
  Discount.discount_type d = "coupon"%string →
  fold_left (discount_step d) its a = a.
Proof.
  intros Ht. induction its as [|l its IH]; [done|].
  cbn [fold_left]. rewrite <- IH at 2. f_equal.
  unfold discount_step. rewrite Ht. by destruct (not_excluded d l).
Qed.

(** C9, as amended: with a coupon discount for which [is_valid()] returns
    [True] the accumulated discount is exactly 0 and the total is
    [max(0, subtotal)], the total of the same order without a discount; it
    is the subtotal itself when that is not negative. *)
Theorem update_total_amount_coupon clock self db d :
  Order.discount self = Some d →
  is_valid models_py clock d = Ok true →
  Discount.discount_type d = "coupon"%string →
  let lines := items db (Order.id self) in
  discount_amount models_py clock self lines = Ok 0%Q
  ∧ ∃ self',
      snd (update_total_amount models_py clock self db) = Ok self'
      ∧ (Order.total_amount self' == Qmax 0 (sum_over line_charge lines))%Q
      ∧ total_after models_py clock (without_discount self) db
        = Ok (Order.total_amount self')
      ∧ ((0 <= sum_over line_charge lines)%Q →
         (Order.total_amount self' == sum_over line_charge lines)%Q).
Proof.
  intros Hd Hv Ht lines.
  assert (discount_amount models_py clock self lines = Ok 0%Q) as Hda.
  { rewrite (discount_amount_valid _ _ _ _ _ Hd Hv). f_equal.
    by apply coupon_loop. }
  split; [done|].
  unfold total_after. rewrite !update_total_amount_run. fold lines.
  rewrite Hda. cbn [without_discount Order.id]. fold lines.
  rewrite discount_amount_none by done.
  cbv beta iota zeta. eexists. split; [reflexivity|].
  cbn [snd set_total_amount Order.total_amount].
  assert (py_max (py_sum (map subtotal lines) - 0) 0
          == Qmax 0 (sum_over line_charge lines))%Q as Hmax.
  { rewrite py_max_0, subtotal_line_charge.
    apply Q.max_compat; [reflexivity|]. lra. }
  split; [done|]. split; [done|].
  intros Hnn. rewrite Hmax. by apply Q.max_r.
Qed.

Lemma update_total_amount_coupon_scenario :
  discount_amount models_py 100 (order_of (Some coupon)) two_lines = Ok 0%Q
  ∧ ∃ self',
      snd (update_total_amount models_py 100 (order_of (Some coupon))
                               (shop (Some coupon))) = Ok self'
      ∧ (Order.total_amount self' == Qmax 0 (sum_over line_charge two_lines))%Q
      ∧ total_after models_py 100 (without_discount (order_of (Some coupon)))
                    (shop (Some coupon))
        = Ok (Order.total_amount self')
      ∧ ((0 <= sum_over line_charge two_lines)%Q →
         (Order.total_amount self' == sum_over line_charge two_lines)%Q).
Proof.
  apply (update_total_amount_coupon 100 (order_of (Some coupon))
           (shop (Some coupon)) coupon); reflexivity.
Defined.

Lemma coupon_total_is_not_the_subtotal :
  Order.discount (order_of (Some coupon)) = Some coupon
  ∧ is_valid models_py 100 coupon = Ok true
  ∧ Discount.discount_type coupon = "coupon"%string
  ∧ discount_amount models_py 100 (order_of (Some coupon))
                    (items returns_db 1) = Ok 0%Q
  ∧ total_after models_py 100 (order_of (Some coupon)) returns_db = Ok 0%Q
  ∧ (sum_over line_charge (items returns_db 1) == -5)%Q
  ∧ ¬ (0 == sum_over line_charge (items returns_db 1))%Q.
Proof.
  repeat split; try reflexivity. vm_compute. discriminate.
Qed.

(** ** Free lines *)

(** A free line whose menu item is not excluded, added to the lines of an
    order with a discount for which [is_valid()] returns [True], leaves the
    subtotal as it was and adds to the accumulated discount what the
    discount's type says; so whenever the total was positive and the line's
    discount is, the total strictly decreases. *)
Lemma free_line_discounted_when_valid clock self d lines l :
  Order.discount self = Some d →
  is_valid models_py clock d = Ok true →
  OrderItem.is_free l = true →
  OrderItem.menu_item l ∉ Discount.excluded_items d →
  ∃ da da',
    (py_sum (map subtotal (lines ++ [l])) == py_sum (map subtotal lines))%Q
    ∧ discount_amount models_py clock self lines = Ok da
    ∧ discount_amount models_py clock self (lines ++ [l]) = Ok da'
    ∧ (da' == da + line_discount d l)%Q.
Proof.
  intros Hd Hv Hfree Hnex.
  exists (fold_left (discount_step d) lines 0%Q),
         (fold_left (discount_step d) (lines ++ [l]) 0%Q).
  split; [|split; [|split]].
  - rewrite !py_sum_map, sum_over_app. cbn [sum_over].
    unfold subtotal at 2. rewrite Hfree. lra.
  - by apply discount_amount_valid.
  - by apply discount_amount_valid.
  - rewrite fold_left_app. cbn [fold_left].
    rewrite discount_step_line, decide_True by done. reflexivity.
Qed.

(** C10: the order of the specification's scenario with a third line that
    is free, under five off per line running from a start date to an end
    date.  The free line adds nothing to the subtotal and its menu item is
    not excluded; the discount is valid at the time of the call, so the flat
    value is due once more and the total should fall from 15.00 to 10.00;
    but nothing accrues, for the free line or any other: the validity check
    raises [NameError] on [timezone], whatever the time, and
    [update_total_amount] sets no total. *)
Theorem free_line_dated_discount_raises :
  let d := five_off_this_week in
  let lines := two_lines ++ [on_the_house] in
  OrderItem.is_free on_the_house = true
  ∧ subtotal on_the_house = 0%Q
  ∧ (OrderItem.menu_item on_the_house ∉ Discount.excluded_items d)
  ∧ in_window d 100 = true
  ∧ items (shop_with_free_line (Some d)) 1 = lines
  ∧ (Qmax 0 (sum_over line_charge two_lines
             - Discount.discount_value d
               * inject_Z (Z.of_nat (length (qualifying d two_lines)))) == 15)%Q
  ∧ (Qmax 0 (sum_over line_charge lines
             - Discount.discount_value d
               * inject_Z (Z.of_nat (length (qualifying d lines)))) == 10)%Q
  ∧ ∀ clock,
      discount_amount models_py clock (order_of (Some d)) lines
      = Raise (NameError "timezone")
      ∧ update_total_amount models_py clock (order_of (Some d))
                            (shop_with_free_line (Some d))
        = (shop_with_free_line (Some d), Raise (NameError "timezone")).
Proof.
  repeat split. apply not_elem_of_nil.
Qed.

(** ** [OrderItem.save] *)

Lemma float_mul_int_ok f z fz :
  float_of_int z = Ok fz → float_mul_int f z = Ok (SFmul prec emax f fz).
Proof. intros H. unfold float_mul_int. by rewrite H. Qed.

Lemma deplete_run self r db i fq :
  get Ingredient.id (Recipe.ingredient r) (ingredients db) = Some i →
  float_of_int (OrderItem.quantity self) = Ok fq →
  deplete self r db =
  (mkDB (put Ingredient.id
           (set_quantity i (float_sub (Ingredient.quantity i)
                                      (SFmul prec emax (Recipe.quantity r) fq)))
           (ingredients db))
        (recipes db) (order_items db) (orders db) (menu_items db),
   Ok tt).
Proof.
  intros Hi Hq.
  unfold deplete, recipe_ingredient, Ingredient_save. run_M.
  by rewrite Hi, (float_mul_int_ok _ _ _ Hq).
Qed.

Lemma set_quantity_twice i a b : set_quantity (set_quantity i a) b = set_quantity i b.
Proof. done. Qed.

Lemma for_each_deplete self fq rs :
  float_of_int (OrderItem.quantity self) = Ok fq →
  ∀ db, stocked db rs →
  ∃ ings,
    for_each rs (deplete self) db
    = (mkDB ings (recipes db) (order_items db) (orders db) (menu_items db), Ok tt)
    ∧ ∀ k i, get Ingredient.id k (ingredients db) = Some i →
        get Ingredient.id k ings
        = Some (set_quantity i (depleted fq rs k (Ingredient.quantity i))).
Proof.
  intros Hq. induction rs as [|r rs IH]; intros db Hst.
  - exists (ingredients db). split; [by destruct db|].
    intros k i Hi. rewrite Hi. by destruct i.
  - apply Forall_cons in Hst as [[i0 Hi0] Hst].
    pose proof (get_pk _ _ _ _ Hi0) as Hk0.
    set (i0' := set_quantity i0 (float_sub (Ingredient.quantity i0)
                  (SFmul prec emax (Recipe.quantity r) fq))).
    set (db1 := mkDB (put Ingredient.id i0' (ingredients db))
                     (recipes db) (order_items db) (orders db) (menu_items db)).
    assert (∀ k i, get Ingredient.id k (ingredients db) = Some i →
              get Ingredient.id k (ingredients db1)
              = Some (if decide (Recipe.ingredient r = k) then i0' else i))
      as Hget.
    { intros k i Hi. unfold db1. cbn [ingredients].
      destruct (decide (Recipe.ingredient r = k)) as [<-|Hne].
      - rewrite <- Hk0. apply (get_put_eq Ingredient.id i0').
      - rewrite get_put_ne; [done|]. cbn. congruence. }
    destruct (IH db1) as (ings & Hrun & Hings).
    { eapply Forall_impl; [exact Hst|]. intros r' [i' Hi']. cbn beta.
      rewrite (Hget _ _ Hi'). by eexists. }
    exists ings. split.
    + cbn [for_each]. run_M.
      rewrite (deplete_run _ _ _ _ _ Hi0 Hq). fold i0' db1. by rewrite Hrun.
    + intros k i Hi. rewrite (Hings _ _ (Hget _ _ Hi)).
      unfold depleted. rewrite filter_cons.
      destruct (decide (Recipe.ingredient r = k)) as [<-|Hne]; [|done].
      assert (i = i0) as -> by congruence. done.
Qed.

Lemma int64_range z : int64 z = true → - 2 ^ 63 ≤ z < 2 ^ 63.
Proof.
  unfold int64. intros H. apply andb_prop in H as [H1 H2].
  apply Z.leb_le in H1. apply Z.ltb_lt in H2. done.
Qed.

Lemma binds_quantity self :
  binds self = true → int64 (OrderItem.quantity self) = true.
Proof.
  unfold binds, bound_integers. rewrite forallb_app. intros H.
  apply andb_prop in H as [_ H]. cbn in H.
  by repeat (apply andb_prop in H as [? H]).
Qed.

(** The instance as [super().save()] leaves it when the statement is
    accepted: its own fields, and the next key when it had none. *)
Lemma super_save_run self db :
  binds self = true →
  has_row Order.id (OrderItem.order self) (orders db) = true →
  has_row MenuItem.id (OrderItem.menu_item self) (menu_items db) = true →
  ∃ self1 rows,
    super_save self db
    = (mkDB (ingredients db) (recipes db) rows (orders db) (menu_items db),
       Ok self1)
    ∧ In (row_of self1) rows
    ∧ self1 = match OrderItem.id self with
              | Some _ => self
              | None => with_pk self (next_pk (order_items db))
              end.
Proof.
  intros Hq Ho Hm. unfold super_save. rewrite Hq, Ho, Hm. cbn [negb andb].
  destruct (OrderItem.id self) as [k|] eqn:Hid.
  - destruct (existsb (has_pk k) (order_items db)) eqn:E.
    + eexists _, _. split; [reflexivity|]. split; [|done].
      apply existsb_exists in E as (row & Hin & Hrow).
      apply in_map_iff. exists row. by rewrite Hrow.
    + eexists _, _. split; [reflexivity|]. split; [|done].
      apply in_or_app. right. by left.
  - eexists _, _. split; [reflexivity|]. split; [|done].
    apply in_or_app. right. by left.
Qed.

(** When the statement is not accepted nothing is written. *)
Lemma super_save_rejects self db :
  binds self
  && has_row Order.id (OrderItem.order self) (orders db)
  && has_row MenuItem.id (OrderItem.menu_item self) (menu_items db) = false →
  ∃ e, super_save self db = (db, Raise e)
       ∧ (e = OverflowError ∨ e = IntegrityError).
Proof.
  intros H. unfold super_save.
  destruct (binds self); cbn [negb].
  - cbn [andb] in H. rewrite H. cbn [negb]. eexists. split; [done|]. by right.
  - eexists. split; [done|]. by left.
Qed.

Lemma save_rejected ns clock self db :
  binds self
  && has_row Order.id (OrderItem.order self) (orders db)
  && has_row MenuItem.id (OrderItem.menu_item self) (menu_items db) = false →
  fst (save ns clock self db) = db.
Proof.
  intros H. destruct (super_save_rejects self db H) as (e & Hs & _).
  unfold save. run_M. by rewrite Hs.
Qed.

Lemma self_order_store self db : fst (self_order self db) = db.
Proof.
  unfold self_order. destruct (OrderItem.order_cache self); [done|].
  by destruct (get Order.id (OrderItem.order self) (orders db)).
Qed.

Lemma self_order_orders self db db' :
  orders db' = orders db → snd (self_order self db') = snd (self_order self db).
Proof.
  intros H. unfold self_order. destruct (OrderItem.order_cache self); [done|].
  rewrite H. by destruct (get Order.id (OrderItem.order self) (orders db)).
Qed.

(** One call of [save] that the database accepts, written out: the row is
    recorded, the recipe lines are depleted one after the other, and the call
    ends as [update_total_amount] on [self.order] does in the store so
    left. *)
Lemma save_run ns clock self db :
  let rs := recipe_items db (OrderItem.menu_item self) in
  binds self = true →
  has_row Order.id (OrderItem.order self) (orders db) = true →
  has_row MenuItem.id (OrderItem.menu_item self) (menu_items db) = true →
  stocked db rs →
  ∃ fq self1 db2,
    float_of_int (OrderItem.quantity self) = Ok fq
    ∧ self1 = match OrderItem.id self with
              | Some _ => self
              | None => with_pk self (next_pk (order_items db))
              end
    ∧ super_save self db
      = (mkDB (ingredients db) (recipes db) (order_items db2) (orders db)
              (menu_items db), Ok self1)
    ∧ In (row_of self1) (order_items db2)
    ∧ orders db2 = orders db ∧ recipes db2 = recipes db
    ∧ menu_items db2 = menu_items db
    ∧ (∀ k i, get Ingredient.id k (ingredients db) = Some i →
         get Ingredient.id k (ingredients db2)
         = Some (set_quantity i (depleted fq rs k (Ingredient.quantity i))))
    ∧ save ns clock self db
      = match snd (self_order self1 db) with
        | Ok order =>
            let '(db3, r) := update_total_amount ns clock order db2 in
            (db3, order' ← r; Ok (with_order self1 order'))
        | Raise e => (db2, Raise e)
        end.
Proof.
  intros rs H64 Ho Hm Hst.
  destruct (float_of_int_int64 _ (int64_range _ (binds_quantity _ H64)))
    as [fq Hq].
  destruct (super_save_run self db H64 Ho Hm) as (self1 & rows & Hsave & Hin & Hself1).
  assert (OrderItem.menu_item self1 = OrderItem.menu_item self
          ∧ OrderItem.quantity self1 = OrderItem.quantity self) as [Hmi Hqty].
  { rewrite Hself1. by destruct (OrderItem.id self). }
  set (db1 := mkDB (ingredients db) (recipes db) rows (orders db) (menu_items db)) in *.
  assert (Hq1 : float_of_int (OrderItem.quantity self1) = Ok fq) by by rewrite Hqty.
  destruct (for_each_deplete self1 fq rs Hq1 db1 Hst) as (ings & Hrun & Hings).
  set (db2 := mkDB ings (recipes db) rows (orders db) (menu_items db)) in *.
  exists fq, self1, db2. repeat (split; [done|]).
  unfold save. run_M. rewrite Hsave.
  change (recipe_items db1 (OrderItem.menu_item self1)) with
    (recipe_items db (OrderItem.menu_item self1)).
  rewrite Hmi. fold rs. rewrite Hrun.
  change (mkDB ings (recipes db1) (order_items db1) (orders db1) (menu_items db1))
    with db2.
  rewrite <- (self_order_orders self1 db db2) by done.
  pose proof (self_order_store self1 db2) as Hfst.
  destruct (self_order self1 db2) as [db2' [o|e]]; cbn [fst snd] in *; subst db2'.
  - by destruct (update_total_amount ns clock o db2) as [db3 [o'|e]].
  - done.
Qed.











(** * Further properties *)

(** ** More on float subtraction *)



(** ** [Discount.is_valid] *)

(** X1: the three outcomes of [is_valid] in [models.py]: [False] for every
    inactive discount whatever its dates, [True] for an active discount with
    neither date, [NameError] for every active discount with a start or an
    end date; none depends on the clock. *)
Theorem is_valid_outcome clock d :
  is_valid models_py clock d
  = if negb (Discount.is_active d) then Ok false
    else match Discount.start_date d, Discount.end_date d with
         | None, None => Ok true
         | _, _ => Raise (NameError "timezone")
         end.
Proof.
  unfold is_valid. destruct (Discount.is_active d); [|done]. cbn [negb].
  destruct (Discount.start_date d) as [s|]; [done|].
  by destruct (Discount.end_date d) as [e|].
Qed.

(** ** [Order.update_total_amount] *)

Lemma discount_amount_dated clock self d its :
  Order.discount self = Some d → Discount.is_active d = true →
  is_Some (Discount.start_date d) ∨ is_Some (Discount.end_date d) →
  discount_amount models_py clock self its = Raise (NameError "timezone").
Proof.
  intros Hd Ha Hdate. unfold discount_amount. rewrite Hd.
  unfold mbind, result_bind. by rewrite is_valid_dated_raises.
Qed.

(** X2: an order whose discount is active and has a date cannot be
    totalled: the call raises [NameError] whatever the lines, and the store
    is as it was. *)
Theorem update_total_amount_dated_discount_raises clock self db d :
  Order.discount self = Some d → Discount.is_active d = true →
  is_Some (Discount.start_date d) ∨ is_Some (Discount.end_date d) →
  update_total_amount models_py clock self db = (db, Raise (NameError "timezone")).
Proof.
  intros Hd Ha Hdate. rewrite update_total_amount_run.
  by rewrite (discount_amount_dated _ _ _ _ Hd Ha Hdate).
Qed.

Lemma update_total_amount_dated_discount_raises_scenario :
  update_total_amount models_py 100 (order_of (Some happy_hour))
                      (shop (Some happy_hour))
  = (shop (Some happy_hour), Raise (NameError "timezone")).
Proof.
  apply (update_total_amount_dated_discount_raises 100 _ _ happy_hour);
    [reflexivity|reflexivity|]. left. by eexists.
Defined.


(** The total when nothing is discounted. *)
Lemma update_total_amount_undiscounted ns clock self db :
  discount_amount ns clock self (items db (Order.id self)) = Ok 0%Q →
  ∃ self',
    update_total_amount ns clock self db = (saved_order self' db, Ok self')
    ∧ (Order.total_amount self'
       == Qmax 0 (sum_over line_charge (items db (Order.id self))))%Q
    ∧ total_after ns clock (without_discount self) db
      = Ok (Order.total_amount self').
Proof.
  intros Hda. unfold total_after. rewrite !update_total_amount_run.
  cbn [without_discount Order.id]. rewrite Hda.
  rewrite discount_amount_none by done.
  cbv beta iota zeta. eexists. split; [reflexivity|].
  cbn [snd set_total_amount Order.total_amount]. split; [|done].
  rewrite py_max_0, subtotal_line_charge.
  apply Q.max_compat; [reflexivity|]. lra.
Qed.





Lemma other_type_loop d its a :
  Discount.discount_type d ≠ "amount"%string →
  Discount.discount_type d ≠ "percentage"%string →
  fold_left (discount_step d) its a = a.
Proof.
  intros H1 H2. apply String.eqb_neq in H1, H2.
  induction its as [|l its IH]; [done|].
  cbn [fold_left]. rewrite <- IH at 2. f_equal.
  unfold discount_step. rewrite H1, H2. by destruct (not_excluded d l).
Qed.

(** X5: a discount whose type is neither ["amount"] nor ["percentage"]
    (any other string, the comparison is exact) discounts nothing, even when
    [is_valid()] returns [True]. *)
Theorem update_total_amount_other_type clock self db d :
  Order.discount self = Some d →
  is_valid models_py clock d = Ok true →
  Discount.discount_type d ≠ "amount"%string →
  Discount.discount_type d ≠ "percentage"%string →
  discount_amount models_py clock self (items db (Order.id self)) = Ok 0%Q
  ∧ ∃ self',
      update_total_amount models_py clock self db
      = (saved_order self' db, Ok self')
      ∧ (Order.total_amount self'
         == Qmax 0 (sum_over line_charge (items db (Order.id self))))%Q.
Proof.
  intros Hd Hv H1 H2.
  assert (discount_amount models_py clock self (items db (Order.id self))
          = Ok 0%Q) as Hda.
  { rewrite (discount_amount_valid _ _ _ _ _ Hd Hv). f_equal.
    by apply other_type_loop. }
  split; [done|].
  destruct (update_total_amount_undiscounted models_py clock self db Hda)
    as (self' & Hrun & Htot & _).
  by exists self'.
Qed.

Lemma update_total_amount_other_type_scenario :
  discount_amount models_py 100 (order_of (Some mislabelled)) two_lines = Ok 0%Q
  ∧ ∃ self',
      update_total_amount models_py 100 (order_of (Some mislabelled))
                          (shop (Some mislabelled))
      = (saved_order self' (shop (Some mislabelled)), Ok self')
      ∧ (Order.total_amount self' == Qmax 0 (sum_over line_charge two_lines))%Q.
Proof.
  apply (update_total_amount_other_type 100 (order_of (Some mislabelled))
           (shop (Some mislabelled)) mislabelled); try reflexivity; discriminate.
Defined.

(** X6: whatever its outcome, a call changes neither the stock, nor the
    recipes, nor the order lines, nor the row of any other order; the
    instance keeps its key, status, payment method and discount. *)
Theorem update_total_amount_frame ns clock self db :
  let '(db', r) := update_total_amount ns clock self db in
  ingredients db' = ingredients db
  ∧ recipes db' = recipes db
  ∧ order_items db' = order_items db
  ∧ (∀ k, k ≠ Order.id self →
       get Order.id k (orders db') = get Order.id k (orders db))
  ∧ (∀ self', r = Ok self' →
       Order.id self' = Order.id self
       ∧ Order.status self' = Order.status self
       ∧ Order.payment_method self' = Order.payment_method self
       ∧ Order.discount self' = Order.discount self).
Proof.
  rewrite update_total_amount_run.
  destruct (discount_amount ns clock self (items db (Order.id self))) as [da|e].
  - cbv beta iota zeta. repeat (split; [done|]). split.
    + intros k Hk. unfold saved_order. cbn [orders].
      by rewrite get_put_ne.
    + by intros self' [= <-].
  - repeat (split; [done|]). done.
Qed.

Lemma sum_over_le {A} (f g : A → Q) xs :
  Forall (λ x, (f x <= g x)%Q) xs → (sum_over f xs <= sum_over g xs)%Q.
Proof.
  induction 1 as [|x xs Hx _ IH]; cbn [sum_over]; [lra|]. lra.
Qed.

Lemma qualifying_no_exclusion d its :
  Discount.excluded_items d = [] → qualifying d its = its.
Proof.
  intros He. unfold qualifying. induction its as [|l its IH]; [done|].
  rewrite filter_cons, decide_True; [by rewrite IH|].
  rewrite He. apply not_elem_of_nil.
Qed.

Lemma qualifying_all_excluded d its :
  Forall (λ l, OrderItem.menu_item l ∈ Discount.excluded_items d) its →
  qualifying d its = [].
Proof.
  unfold qualifying. induction 1 as [|l its Hl _ IH]; [done|].
  rewrite filter_cons, decide_False; [done|]. by intros Hn.
Qed.

(** X7: a percentage discount of 100 without exclusions, on lines none of
    which has a negative price times quantity, leaves a total of 0, free
    lines or not. *)
Theorem update_total_amount_hundred_percent clock self db d :
  Order.discount self = Some d →
  is_valid models_py clock d = Ok true →
  Discount.discount_type d = "percentage"%string →
  (Discount.discount_value d == 100)%Q →
  Discount.excluded_items d = [] →
  Forall (λ l, (0 <= OrderItem.price l * inject_Z (OrderItem.quantity l))%Q)
         (items db (Order.id self)) →
  ∃ self',
    update_total_amount models_py clock self db = (saved_order self' db, Ok self')
    ∧ (Order.total_amount self' == 0)%Q.
Proof.
  intros Hd Hv Ht Hval He Hnn.
  destruct (update_total_amount_valid _ clock self db d Hd Hv)
    as (self' & Hrun & _ & _ & Htot).
  exists self'. split; [done|]. rewrite Htot.
  rewrite (qualifying_no_exclusion _ _ He).
  apply Q.max_l.
  assert (sum_over line_charge (items db (Order.id self))
          <= sum_over (line_discount d) (items db (Order.id self)))%Q; [|lra].
  apply sum_over_le. eapply Forall_impl; [exact Hnn|].
  intros l Hl. cbn beta in *.
  rewrite line_discount_percentage by done.
  unfold line_charge, line_percentage. rewrite Hval.
  destruct (OrderItem.is_free l).
  - assert (OrderItem.price l * 100 / 100 * inject_Z (OrderItem.quantity l)
            == OrderItem.price l * inject_Z (OrderItem.quantity l))%Q as ->
      by field. done.
  - assert (OrderItem.price l * 100 / 100 * inject_Z (OrderItem.quantity l)
            == OrderItem.price l * inject_Z (OrderItem.quantity l))%Q as ->
      by field. lra.
Qed.

Lemma update_total_amount_hundred_percent_scenario :
  ∃ self',
    update_total_amount models_py 100 (order_of (Some all_free))
                        (shop (Some all_free))
    = (saved_order self' (shop (Some all_free)), Ok self')
    ∧ (Order.total_amount self' == 0)%Q.
Proof.
  apply (update_total_amount_hundred_percent 100 (order_of (Some all_free))
           (shop (Some all_free)) all_free); try reflexivity.
  repeat constructor; discriminate.
Defined.

Lemma all_excluded_loop d its a :
  Forall (λ l, OrderItem.menu_item l ∈ Discount.excluded_items d) its →
  fold_left (discount_step d) its a = a.
Proof.
  induction 1 as [|l its Hl _ IH]; [done|].
  cbn [fold_left]. rewrite <- IH at 2. f_equal.
  unfold discount_step.
  destruct (not_excluded d l) eqn:E; [|done].
  by apply not_excluded_spec in E.
Qed.

(** X8: under a discount for which [is_valid()] returns [True], when the
    menu item of every line is excluded the discount accumulates nothing,
    whatever its type, and the total is [max(0, subtotal)]. *)
Theorem update_total_amount_all_excluded clock self db d :
  Order.discount self = Some d →
  is_valid models_py clock d = Ok true →
  Forall (λ l, OrderItem.menu_item l ∈ Discount.excluded_items d)
         (items db (Order.id self)) →
  discount_amount models_py clock self (items db (Order.id self)) = Ok 0%Q
  ∧ ∃ self',
      update_total_amount models_py clock self db
      = (saved_order self' db, Ok self')
      ∧ (Order.total_amount self'
         == Qmax 0 (sum_over line_charge (items db (Order.id self))))%Q.
Proof.
  intros Hd Hv Hex.
  assert (discount_amount models_py clock self (items db (Order.id self))
          = Ok 0%Q) as Hda.
  { rewrite (discount_amount_valid _ _ _ _ _ Hd Hv). f_equal.
    by apply all_excluded_loop. }
  split; [done|].
  destruct (update_total_amount_undiscounted models_py clock self db Hda)
    as (self' & Hrun & Htot & _).
  by exists self'.
Qed.

Lemma update_total_amount_all_excluded_scenario :
  ∃ self',
    update_total_amount models_py 100 (order_of (Some nothing_applies))
                        (shop (Some nothing_applies))
    = (saved_order self' (shop (Some nothing_applies)), Ok self')
    ∧ (Order.total_amount self' == 25)%Q.
Proof.
  destruct (update_total_amount_all_excluded 100 (order_of (Some nothing_applies))
              (shop (Some nothing_applies)) nothing_applies eq_refl eq_refl)
    as (_ & self' & Hrun & Htot).
  { repeat constructor. }
  exists self'. split; [exact Hrun|]. rewrite Htot. reflexivity.
Defined.

(** X9: an order without lines is totalled to exactly 0 whenever the call
    returns, whatever discount it has; otherwise the call raised on the
    clock. *)
Theorem update_total_amount_no_lines clock self db :
  items db (Order.id self) = [] →
  match update_total_amount models_py clock self db with
  | (db', Ok self') => Order.total_amount self' = 0%Q
  | (db', Raise e) => e = NameError "timezone"
  end.
Proof.
  intros Hits. rewrite update_total_amount_run, Hits.
  destruct (discount_amount models_py clock self []) as [da|e] eqn:E.
  - cbv beta iota zeta. cbn [set_total_amount Order.total_amount].
    unfold discount_amount in E. destruct (Order.discount self) as [d|].
    + unfold mbind, result_bind in E.
      destruct (is_valid models_py clock d) as [[]|]; cbn in E;
        try discriminate; by injection E as <-.
    + by injection E as <-.
  - by apply discount_amount_raises in E.
Qed.

Lemma update_total_amount_no_lines_scenario :
  match update_total_amount models_py 100 (Order.mk 2 "pending" 7%Q "cash" (Some five_off))
                            (shop None) with
  | (db', Ok self') => Order.total_amount self' = 0%Q
  | (db', Raise e) => e = NameError "timezone"
  end.
Proof.
  apply (update_total_amount_no_lines 100
           (Order.mk 2 "pending" 7%Q "cash" (Some five_off)) (shop None)).
  reflexivity.
Defined.

(** ** [MenuItem.caluclate_cost] *)

(** X10: for a menu item with at least one recipe line [caluclate_cost]
    never returns: it raises [TypeError] at the first line when that line's
    ingredient exists, [DoesNotExist] when it does not. *)
Theorem caluclate_cost_never_returns_with_recipe db self r rs :
  recipe_items db (MenuItem.id self) = r :: rs →
  caluclate_cost db self
  = match get Ingredient.id (Recipe.ingredient r) (ingredients db) with
    | Some _ => Raise (TypeError "*" "decimal.Decimal" "float")
    | None => Raise (DoesNotExist "Ingredient" (Recipe.ingredient r))
    end.
Proof.
  intros H. unfold caluclate_cost. rewrite H. cbn [sum_recipe_costs].
  unfold recipe_ingredient.
  by destruct (get Ingredient.id (Recipe.ingredient r) (ingredients db)).
Qed.

Lemma caluclate_cost_never_returns_with_recipe_scenario :
  caluclate_cost (kitchen float_eight) (MenuItem.mk 7 "Burger" 10%Q 0%Q true)
  = Raise (TypeError "*" "decimal.Decimal" "float").
Proof.
  exact (caluclate_cost_never_returns_with_recipe (kitchen float_eight)
           (MenuItem.mk 7 "Burger" 10%Q 0%Q true) bun_line [] eq_refl).
Defined.

(** X11: a menu item without recipe lines costs its miscellaneous cost. *)
Theorem caluclate_cost_without_recipe db self :
  recipe_items db (MenuItem.id self) = [] →
  ∃ c, caluclate_cost db self = Ok c ∧ (c == MenuItem.misc_cost self)%Q.
Proof.
  intros H. unfold caluclate_cost. rewrite H. eexists. split; [reflexivity|].
  lra.
Qed.

Lemma caluclate_cost_without_recipe_scenario :
  ∃ c, caluclate_cost (kitchen float_eight) (MenuItem.mk 8 "Water" 5%Q (20#100)%Q true)
       = Ok c
       ∧ (c == 20#100)%Q.
Proof.
  exact (caluclate_cost_without_recipe (kitchen float_eight)
           (MenuItem.mk 8 "Water" 5%Q (20#100)%Q true) eq_refl).
Defined.

(** ** [OrderItem.save] *)

Lemma super_save_recorded self db :
  binds self = true →
  has_row Order.id (OrderItem.order self) (orders db) = true →
  has_row MenuItem.id (OrderItem.menu_item self) (menu_items db) = true →
  super_save self db = (recorded_db self db, Ok (recorded self db))
  ∧ recorded self db = match OrderItem.id self with
                       | Some _ => self
                       | None => with_pk self (next_pk (order_items db))
                       end
  ∧ ingredients (recorded_db self db) = ingredients db
  ∧ recipes (recorded_db self db) = recipes db
  ∧ orders (recorded_db self db) = orders db
  ∧ menu_items (recorded_db self db) = menu_items db
  ∧ In (row_of (recorded self db)) (order_items (recorded_db self db)).
Proof.
  intros H64 Ho Hm.
  destruct (super_save_run self db H64 Ho Hm) as (self1 & rows & Hrun & Hin & Hself1).
  unfold recorded, recorded_db. rewrite Hrun. cbn [fst snd]. done.
Qed.

Lemma recorded_fields self db :
  OrderItem.order (recorded self db) = OrderItem.order self
  ∧ OrderItem.menu_item (recorded self db) = OrderItem.menu_item self
  ∧ OrderItem.quantity (recorded self db) = OrderItem.quantity self
  ∧ OrderItem.price (recorded self db) = OrderItem.price self
  ∧ OrderItem.is_free (recorded self db) = OrderItem.is_free self
  ∧ OrderItem.order_cache (recorded self db) = OrderItem.order_cache self.
Proof.
  unfold recorded, super_save.
  destruct (negb (binds _)); [done|]. destruct (negb (_ && _)); [done|].
  destruct (OrderItem.id self) as [k|];
    [destruct (existsb (has_pk k) (order_items db))|]; done.
Qed.

Lemma update_total_amount_tables ns clock self db :
  let db' := fst (update_total_amount ns clock self db) in
  ingredients db' = ingredients db
  ∧ recipes db' = recipes db
  ∧ order_items db' = order_items db
  ∧ menu_items db' = menu_items db.
Proof.
  cbv zeta. rewrite update_total_amount_run.
  by destruct (discount_amount ns clock self (items db (Order.id self))).
Qed.

Lemma has_row_put {R} (pk : R → Z) k r rows :
  has_row pk k rows = true → has_row pk k (put pk r rows) = true.
Proof.
  unfold has_row, put. intros H.
  destruct (existsb (λ r', pk r' =? pk r) rows).
  - apply existsb_exists in H as (x & Hin & Hx). apply existsb_exists.
    destruct (pk x =? pk r) eqn:E.
    + exists r. split.
      * apply in_map_iff. exists x. by rewrite E.
      * apply Z.eqb_eq in E. by rewrite <- E.
    + exists x. split; [|done]. apply in_map_iff. exists x. by rewrite E.
  - rewrite existsb_app, H. done.
Qed.

Lemma update_total_amount_has_order ns clock self db k :
  has_row Order.id k (orders db) = true →
  has_row Order.id k (orders (fst (update_total_amount ns clock self db))) = true.
Proof.
  intros H. rewrite update_total_amount_run.
  destruct (discount_amount ns clock self (items db (Order.id self))); [|done].
  cbn [fst]. unfold saved_order. cbn [orders]. by apply has_row_put.
Qed.

(** What a call of [save] that the database accepts leaves in the tables,
    whatever becomes of the order's total. *)
Lemma save_tables ns clock self db :
  let rs := recipe_items db (OrderItem.menu_item self) in
  binds self = true →
  has_row Order.id (OrderItem.order self) (orders db) = true →
  has_row MenuItem.id (OrderItem.menu_item self) (menu_items db) = true →
  stocked db rs →
  ∃ fq,
    float_of_int (OrderItem.quantity self) = Ok fq
    ∧ let db' := fst (save ns clock self db) in
      (∀ k i, get Ingredient.id k (ingredients db) = Some i →
         get Ingredient.id k (ingredients db')
         = Some (set_quantity i (depleted fq rs k (Ingredient.quantity i))))
      ∧ recipes db' = recipes db
      ∧ menu_items db' = menu_items db
      ∧ order_items db' = order_items (recorded_db self db)
      ∧ (∀ k, has_row Order.id k (orders db) = true →
           has_row Order.id k (orders db') = true).
Proof.
  intros rs H64 Ho Hm Hst.
  destruct (save_run ns clock self db H64 Ho Hm Hst)
    as (fq & self1 & db2 & Hq & _ & Hsup & _ & Hord & Hr & Hmenu & Hings & Hsave).
  exists fq. split; [done|]. cbv zeta. rewrite Hsave.
  assert (order_items db2 = order_items (recorded_db self db)) as Hrows.
  { unfold recorded_db. by rewrite Hsup. }
  destruct (snd (self_order self1 db)) as [o|e].
  - pose proof (update_total_amount_tables ns clock o db2) as Hf.
    pose proof (update_total_amount_has_order ns clock o db2) as Hh.
    destruct (update_total_amount ns clock o db2) as [db3 r].
    destruct Hf as (Hi & Hr3 & Hoi & Hmi3). cbn [fst] in *.
    rewrite Hi, Hr3, Hoi, Hmi3. repeat (split; [done|]).
    intros k Hk. apply Hh. by rewrite Hord.
  - cbn [fst]. repeat (split; [done|]). intros k Hk. by rewrite Hord.
Qed.

(** X12: nothing is rolled back: when the database accepts the line (its
    integers fit the integer column, the price the digits of its column,
    the order and the menu item exist) and the order it holds (or, holding
    none, reads) has a discount that is active and has a date, [save]
    raises [NameError], but the line's row has been recorded and the stock
    has been depleted; only the order's row is as it was. *)
Theorem save_not_rolled_back clock self db o d :
  let rs := filter (λ r, Recipe.menu_item r = OrderItem.menu_item self)
                   (recipes db) in
  binds self = true →
  readable 6 (OrderItem.price self) = true →
  has_row Order.id (OrderItem.order self) (orders db) = true →
  has_row MenuItem.id (OrderItem.menu_item self) (menu_items db) = true →
  stocked db rs →
  snd (self_order self db) = Ok o →
  Order.discount o = Some d → Discount.is_active d = true →
  is_Some (Discount.start_date d) ∨ is_Some (Discount.end_date d) →
  ∃ fq db',
    float_of_int (OrderItem.quantity self) = Ok fq
    ∧ save models_py clock self db = (db', Raise (NameError "timezone"))
    ∧ In (row_of (recorded self db)) (order_items db')
    ∧ (∀ k i, get Ingredient.id k (ingredients db) = Some i →
         get Ingredient.id k (ingredients db')
         = Some (set_quantity i (depleted fq rs k (Ingredient.quantity i))))
    ∧ orders db' = orders db.
Proof.
  intros rs H64 _ Ho Hm Hst Hself Hd Ha Hdate.
  destruct (save_run models_py clock self db H64 Ho Hm Hst)
    as (fq & self1 & db2 & Hq & Hself1 & Hsup & Hin & Hord & _ & _ & Hings & Hsave).
  assert (self1 = recorded self db) as Hrec.
  { unfold recorded. by rewrite Hsup. }
  assert (snd (self_order self1 db) = Ok o) as Hso.
  { rewrite <- Hself. unfold self_order. rewrite Hself1.
    by destruct (OrderItem.id self). }
  rewrite Hsave, Hso.
  rewrite update_total_amount_run, (discount_amount_dated _ _ _ _ Hd Ha Hdate).
  exists fq, db2. rewrite <- Hrec. done.
Qed.

Lemma save_not_rolled_back_scenario :
  ∃ db',
    save models_py 100 (new_line 3) (kitchen_with (Some happy_hour) float_eight)
    = (db', Raise (NameError "timezone"))
    ∧ get Ingredient.id 1 (ingredients db') = Some (bun float_two)
    ∧ orders db' = [order_of (Some happy_hour)].
Proof.
  destruct (save_not_rolled_back 100 (new_line 3)
              (kitchen_with (Some happy_hour) float_eight)
              (set_total_amount (order_of (Some happy_hour)) (quantize 0%Q))
              happy_hour)
    as (fq & db' & Hq & Hrun & _ & Hings & Ho); try reflexivity.
  { repeat constructor. by eexists. }
  { left. by eexists. }
  exists db'. split; [exact Hrun|]. split; [|exact Ho].
  injection Hq as <-.
  exact (Hings 1 (bun float_eight) eq_refl).
Defined.

Lemma set_quantity_same i : set_quantity i (Ingredient.quantity i) = i.
Proof. by destruct i. Qed.

Lemma depleted_unused fq rs k q :
  Forall (λ r, Recipe.ingredient r ≠ k) rs → depleted fq rs k q = q.
Proof.
  intros H. unfold depleted.
  replace (filter (λ r, Recipe.ingredient r = k) rs) with (@nil Recipe.t); [done|].
  induction H as [|r rs Hr _ IH]; [done|].
  by rewrite filter_cons, decide_False.
Qed.

(** The database accepts the statement of [super().save()] or it does
    not. *)
Lemma accepted_or_not self db :
  (binds self = true
   ∧ has_row Order.id (OrderItem.order self) (orders db) = true
   ∧ has_row MenuItem.id (OrderItem.menu_item self) (menu_items db) = true)
  ∨ binds self
    && has_row Order.id (OrderItem.order self) (orders db)
    && has_row MenuItem.id (OrderItem.menu_item self) (menu_items db) = false.
Proof.
  destruct (binds _), (has_row Order.id _ _), (has_row MenuItem.id _ _);
    cbn; auto.
Qed.

(** X13: saving an order line leaves every ingredient that no recipe line
    of its menu item uses as it was. *)
Theorem save_leaves_unused_ingredients ns clock self db fq k i :
  let rs := recipe_items db (OrderItem.menu_item self) in
  stocked db rs →
  float_of_int (OrderItem.quantity self) = Ok fq →
  Forall (λ r, Recipe.ingredient r ≠ k) rs →
  get Ingredient.id k (ingredients db) = Some i →
  get Ingredient.id k (ingredients (fst (save ns clock self db))) = Some i.
Proof.
  intros rs Hst Hq Hk Hi.
  destruct (accepted_or_not self db) as [(H64 & Ho & Hm)|Hrej];
    [|by rewrite save_rejected].
  destruct (save_tables ns clock self db H64 Ho Hm Hst) as (fq' & _ & Hings & _).
  rewrite (Hings _ _ Hi). fold rs.
  by rewrite depleted_unused, set_quantity_same.
Qed.

Lemma save_leaves_unused_ingredients_scenario :
  get Ingredient.id 2
      (ingredients (fst (save models_py 100 (new_line 3) (pantry float_eight))))
  = Some salt.
Proof.
  apply (save_leaves_unused_ingredients models_py 100 (new_line 3)
           (pantry float_eight) float_three 2 salt); try reflexivity.
  - repeat constructor. by eexists.
  - repeat constructor. discriminate.
Defined.

(** X14: saving a line whose menu item has no recipe lines leaves the
    stock table as it was, whatever the quantity (no float is computed). *)
Theorem save_without_recipe ns clock self db :
  recipe_items db (OrderItem.menu_item self) = [] →
  ingredients (fst (save ns clock self db)) = ingredients db.
Proof.
  intros Hrs.
  destruct (accepted_or_not self db) as [(H64 & Ho & Hm)|Hrej];
    [|by rewrite save_rejected].
  destruct (super_save_recorded self db H64 Ho Hm) as (Hsave & _ & Hi & Hr & _).
  pose proof (recorded_fields self db) as (_ & Hmi & _).
  unfold save. run_M. rewrite Hsave.
  unfold recipe_items at 1. rewrite Hr, Hmi.
  fold (recipe_items db (OrderItem.menu_item self)). rewrite Hrs.
  cbn [for_each]. unfold mret, M_ret.
  pose proof (self_order_store (recorded self db) (recorded_db self db)) as Hfst.
  destruct (self_order _ _) as [dbx [o|e]]; cbn [fst] in Hfst; subst dbx; [|done].
  pose proof (update_total_amount_tables ns clock o (recorded_db self db)) as Hf.
  destruct (update_total_amount ns clock o _) as [db3 [o'|e]];
    destruct Hf as (Hi' & _); cbn [fst] in *; congruence.
Qed.

Lemma save_without_recipe_scenario :
  ingredients (fst (save models_py 100
                      (OrderItem.mk None 1 8 (2 ^ 2000) (500#100)%Q false None)
                      (kitchen float_eight)))
  = [bun float_eight].
Proof.
  exact (save_without_recipe models_py 100
           (OrderItem.mk None 1 8 (2 ^ 2000) (500#100)%Q false None)
           (kitchen float_eight) eq_refl).
Defined.























